(** * mcp-agent: a web-search bridge over a child process

    A shallow embedding of the three Python modules that carry the logic of
    the bridge, and the properties of them that the specification states:

    - [server/web_search.py], [server/models.py]: the provider client
      ([WebSearchTool.search], [WebSearchTool._parse_results]);
    - [server/mcp_server.py]: the worker's [web_search] handler;
    - [client/fastapi_client.py]: the supervisor [MCPClient] and the two
      HTTP handlers [search_web] and [health_check].

    Python values that come out of [json.loads] are modelled by the type
    [json]; exceptions by a class and a message; a function that can raise
    returns in the error monad [res]; the supervisor, which mutates
    [self.process] and [self.is_running], runs in a state-and-error monad
    over the record [MCPClient].  What the outside world answers (the child
    process, the provider's HTTP endpoint) is an argument of each operation. *)

From Stdlib Require Import List String Ascii ZArith Bool Arith Lia Sorted.
From Stdlib Require Import Numbers.DecimalString Floats.PrimFloat.
Import ListNotations.
Open Scope list_scope.
Open Scope string_scope.

(** ** Exceptions *)

Module Exc.

(** The exception classes the three modules raise, catch, or can meet.
    Only classes below [Exception] are modelled: [KeyboardInterrupt],
    [SystemExit] and task cancellation are signals to the process, not
    errors of a request. *)
Inductive exc_class : Type :=
  | Exception
  | WebSearchError | WebSearchTimeoutError | WebSearchAPIError
  | AttributeError | TypeError | KeyError | ValueError | RuntimeError
  | ValidationError       (* pydantic *)
  | JSONDecodeError       (* json *)
  | OSError | TimeoutError  (* asyncio.TimeoutError *)
  | ClientError.          (* aiohttp.ClientError *)

Definition exc_class_eq_dec (a b : exc_class) : {a = b} + {a <> b}.
Proof. decide equality. Defined.

Definition exc_class_eqb (a b : exc_class) : bool :=
  if exc_class_eq_dec a b then true else false.

(** The class itself followed by its bases, most specific first. *)
Definition mro (c : exc_class) : list exc_class :=
  match c with
  | Exception => [Exception]
  | WebSearchError => [WebSearchError; Exception]
  | WebSearchTimeoutError => [WebSearchTimeoutError; WebSearchError; Exception]
  | WebSearchAPIError => [WebSearchAPIError; WebSearchError; Exception]
  | ValidationError => [ValidationError; ValueError; Exception]
  | JSONDecodeError => [JSONDecodeError; ValueError; Exception]
  | TimeoutError => [TimeoutError; OSError; Exception]
  | c => [c; Exception]
  end.

Definition issubclass (c base : exc_class) : bool :=
  existsb (exc_class_eqb base) (mro c).

(** An exception object: its class and [str(e)]. *)
Record exn : Type := mk_exn { cls : exc_class; msg : string }.

(** A computation that returns a value or raises. *)
Inductive res (A : Type) : Type :=
  | Ok (a : A)
  | Raise (e : exn).
Arguments Ok {A} a.
Arguments Raise {A} e.

Definition bind {A B} (m : res A) (k : A -> res B) : res B :=
  match m with
  | Ok a => k a
  | Raise e => Raise e
  end.

Definition raise {A} (c : exc_class) (m : string) : res A := Raise (mk_exn c m).

(** One [except C as e: h e] clause. *)
Definition clause (A : Type) : Type := (exc_class * (exn -> res A))%type.

(** The first clause whose class the exception is an instance of handles
    it; with no such clause the exception goes on. *)
Fixpoint dispatch {A} (e : exn) (clauses : list (clause A)) : res A :=
  match clauses with
  | [] => Raise e
  | (c, h) :: rest => if issubclass (cls e) c then h e else dispatch e rest
  end.

(** [try: m  except ...: ...] *)
Definition try_except {A} (m : res A) (clauses : list (clause A)) : res A :=
  match m with
  | Ok a => Ok a
  | Raise e => dispatch e clauses
  end.

Definition is_ok {A} (m : res A) : bool :=
  match m with Ok _ => true | Raise _ => false end.

End Exc.
Export Exc.

Declare Scope res_scope.
Delimit Scope res_scope with res.
Notation "x <- m ;; k" := (bind m (fun x => k))
  (at level 61, m at next level, right associativity) : res_scope.
Notation "m ;;; k" := (bind m (fun _ => k))
  (at level 61, right associativity) : res_scope.

(** ** Python values and the operations the code applies to them *)

Module Py.

(** What [json.loads] returns.  A dict is the list of its items in
    insertion order, with distinct keys. *)
#[warnings="-register-all"]
Inductive json : Type :=
  | JNull
  | JBool (b : bool)
  | JInt (z : Z)
  | JFloat (f : float)
  | JStr (s : string)
  | JList (l : list json)
  | JObj (items : list (string * json)).

Definition dict : Type := list (string * json).

(** [type(v).__name__] *)
Definition type_name (v : json) : string :=
  match v with
  | JNull => "NoneType"
  | JBool _ => "bool"
  | JInt _ => "int"
  | JFloat _ => "float"
  | JStr _ => "str"
  | JList _ => "list"
  | JObj _ => "dict"
  end.

(** [bool(v)] *)
Definition truthy (v : json) : bool :=
  match v with
  | JNull => false
  | JBool b => b
  | JInt z => negb (Z.eqb z 0)
  | JFloat f => negb (PrimFloat.eqb f 0%float)
  | JStr s => negb (String.eqb s "")
  | JList l => match l with [] => false | _ => true end
  | JObj d => match d with [] => false | _ => true end
  end.

(** [d.get(key)] on a dict *)
Fixpoint dict_get (d : dict) (key : string) : option json :=
  match d with
  | [] => None
  | (k, v) :: rest => if String.eqb k key then Some v else dict_get rest key
  end.

Definition no_attribute {A} (v : json) (attr : string) : res A :=
  raise AttributeError
    ("'" ++ type_name v ++ "' object has no attribute '" ++ attr ++ "'").

(** [v.get(key, default)]: only a dict has the method. *)
Definition get (v : json) (key : string) (default : json) : res json :=
  match v with
  | JObj d => Ok (match dict_get d key with Some x => x | None => default end)
  | _ => no_attribute v "get"
  end.

(** [s.startswith(("http://", "https://"))] on a string *)
Definition is_http_url (s : string) : bool :=
  String.prefix "http://" s || String.prefix "https://" s.

(** [v.startswith(("http://", "https://"))]: only a str has the method. *)
Definition startswith_http (v : json) : res bool :=
  match v with
  | JStr s => Ok (is_http_url s)
  | _ => no_attribute v "startswith"
  end.

(** [enumerate(l)] *)
Definition enumerate {A} (l : list A) : list (nat * A) :=
  combine (seq 0 (List.length l)) l.

(** [str(n)] for an int *)
Definition str_of_Z (z : Z) : string := NilZero.string_of_int (Z.to_int z).

(** [sub in s] *)
Fixpoint contains (sub s : string) : bool :=
  String.prefix sub s ||
  match s with
  | EmptyString => false
  | String _ s' => contains sub s'
  end.

End Py.
Export Py.

(** ** server/models.py and server/config.py *)

Module Models.

Open Scope res_scope.

(** [Settings]: the key is required, the other fields have defaults. *)
Record Settings : Type := mk_Settings {
  serper_api_key : string;
  request_timeout : Z;
  settings_max_results : Z
}.

Definition default_settings (key : string) : Settings :=
  {| serper_api_key := key; request_timeout := 30; settings_max_results := 20 |}.

Record WebSearchRequest : Type := mk_WebSearchRequest {
  query : string;
  max_results : option Z
}.

Record SearchResult : Type := mk_SearchResult {
  title : string;
  snippet : string;
  url : string;
  rank : nat
}.

Record WebSearchResponse : Type := mk_WebSearchResponse {
  results : list SearchResult;
  metadata : dict;
  response_query : string;
  total_results : nat;
  response_time_ms : float
}.

(** pydantic reports every field that fails at once; of its report only
    the head line is kept here. *)
Definition validation_error {A} (model : string) (failed : nat) : res A :=
  raise ValidationError
    (NilZero.string_of_uint (Nat.to_uint failed) ++ " validation error" ++
     (if Nat.eqb failed 1 then "" else "s") ++ " for " ++ model).

(** A field declared [str]: pydantic 2 accepts a str and converts no
    number, list, dict or None to one. *)
Definition as_str (v : json) : option string :=
  match v with JStr s => Some s | _ => None end.

Definition is_some {A} (o : option A) : bool :=
  match o with Some _ => true | None => false end.

Definition count_failed (checks : list bool) : nat :=
  List.length (filter negb checks).

(** [WebSearchRequest(query=..., max_results=...)]:
    [query] has 1 to 500 characters, [max_results] is None or in 1..20. *)
Definition WebSearchRequest_init (q : string) (m : option Z)
  : res WebSearchRequest :=
  let query_ok := (1 <=? String.length q)%nat && (String.length q <=? 500)%nat in
  let max_ok := match m with
                | None => true
                | Some k => (1 <=? k)%Z && (k <=? 20)%Z
                end in
  if query_ok && max_ok then Ok (mk_WebSearchRequest q m)
  else validation_error "WebSearchRequest" (count_failed [query_ok; max_ok]).

(** [SearchResult.validate_url] *)
Definition validate_url (v : string) : res string :=
  if negb (is_http_url v)
  then raise ValueError "URL must start with http:// or https://"
  else Ok v.

(** [SearchResult(title=..., snippet=..., url=..., rank=...)]: the three
    text fields must be strings, and [url] must pass [validate_url]. *)
Definition SearchResult_init (t s u : json) (r : nat) : res SearchResult :=
  let url_checked := match as_str u with
                     | Some v => match validate_url v with
                                 | Ok v' => Some v'
                                 | Raise _ => None
                                 end
                     | None => None
                     end in
  match as_str t, as_str s, url_checked with
  | Some t', Some s', Some u' => Ok (mk_SearchResult t' s' u' r)
  | t', s', u' =>
      validation_error "SearchResult"
        (count_failed [is_some t'; is_some s'; is_some u'])
  end.

End Models.
Export Models.

(** ** server/web_search.py *)

Module WebSearch.

Open Scope res_scope.

Record WebSearchTool : Type := mk_WebSearchTool {
  api_key : string;
  timeout : Z;
  tool_max_results : Z;
  base_url : string
}.

(** [WebSearchTool.__init__] *)
Definition WebSearchTool_init (settings : Settings) : res WebSearchTool :=
  let self := {| api_key := serper_api_key settings;
                 timeout := request_timeout settings;
                 tool_max_results := settings_max_results settings;
                 base_url := "https://google.serper.dev/search" |} in
  if String.eqb (api_key self) ""
  then raise ValueError "SERPER_API_KEY is required"
  else Ok self.

(** The body of the inner [try] of the loop, for the entry at index [i]:
    [Ok None] is the [continue] on an unusable URL, [Ok (Some r)] the
    result that is appended. *)
Definition parse_entry (i : nat) (result : json) : res (option SearchResult) :=
  title <- get result "title" (JStr "No title") ;;
  snippet <- get result "snippet" (JStr "No description") ;;
  url <- get result "link" (JStr "") ;;
  skip <- (if negb (truthy url) then Ok true
           else (b <- startswith_http url ;; Ok (negb b))) ;;
  if skip : bool then Ok None
  else
    search_result <- SearchResult_init title snippet url (i + 1) ;;
    Ok (Some search_result).

(** One turn of [for i, result in enumerate(organic_results)]; an exception
    of the entry is logged and the loop goes on. *)
Definition loop_body (results : list SearchResult) (ir : nat * json)
  : list SearchResult :=
  match try_except (parse_entry (fst ir) (snd ir))
                   [(Exception, fun _ => Ok None)] with
  | Ok (Some search_result) => (results ++ [search_result])%list
  | Ok None => results
  | Raise _ => results
  end.

(** [WebSearchTool._parse_results] *)
Definition _parse_results (data : json) (q : string) : res (list SearchResult) :=
  try_except
    (organic_results <- get data "organic" (JList []) ;;
     match organic_results with
     | JList l => Ok (fold_left loop_body (enumerate l) [])
     | _ => raise WebSearchError
              "Invalid response format: 'organic' field is not a list"
     end)
    [(Exception, fun e =>
        raise WebSearchError ("Failed to parse search results: " ++ msg e))].

(** What the provider's endpoint does with one POST: the request fails
    (timeout, network error, ...), or a response arrives with its status,
    and with what [response.text()] and [response.json()] give. *)
Inductive HttpOutcome : Type :=
  | PostRaises (e : exn)
  | Responded (status : Z) (text : res string) (body : res json).

(** The provider, as a function of the payload [{"q": ..., "num": ...}]. *)
Definition Provider : Type := string -> Z -> HttpOutcome.

(** [a or b] on an optional int *)
Definition or_default (a : option Z) (b : Z) : Z :=
  match a with
  | Some k => if Z.eqb k 0 then b else k
  | None => b
  end.

(** [min(request.max_results or self.max_results, self.max_results)] *)
Definition payload_num (self : WebSearchTool) (request : WebSearchRequest) : Z :=
  Z.min (or_default (max_results request) (tool_max_results self))
        (tool_max_results self).

(** The first [try] block of [search]: the request and the status checks. *)
Definition fetch (self : WebSearchTool) (post : Provider)
  (request : WebSearchRequest) : res json :=
  try_except
    (match post (query request) (payload_num self request) with
     | PostRaises e => Raise e
     | Responded status text body =>
         if Z.eqb status 429 then raise WebSearchAPIError "API rate limit exceeded"
         else if negb (Z.eqb status 200) then
           error_text <- text ;;
           raise WebSearchAPIError
             ("API error " ++ str_of_Z status ++ ": " ++ error_text)
         else body
     end)
    [(TimeoutError, fun _ =>
        raise WebSearchTimeoutError
          ("Request timed out after " ++ str_of_Z (timeout self) ++ " seconds"));
     (ClientError, fun e => raise WebSearchError ("Network error: " ++ msg e));
     (Exception, fun e => raise WebSearchError ("Unexpected error: " ++ msg e))].

(** [WebSearchTool.search]; [elapsed_ms] is the measured wall-clock time. *)
Definition search (self : WebSearchTool) (post : Provider) (elapsed_ms : float)
  (request : WebSearchRequest) : res WebSearchResponse :=
  data <- fetch self post request ;;
  try_except
    (results <- _parse_results data (query request) ;;
     Ok {| results := results;
           metadata := [("api_provider", JStr "serper");
                        ("status_code", JInt 200);
                        ("request_timeout", JInt (timeout self))];
           response_query := query request;
           total_results := List.length results;
           response_time_ms := elapsed_ms |})
    [(Exception, fun e =>
        raise WebSearchError ("Failed to parse API response: " ++ msg e))].

End WebSearch.
Export WebSearch.

(** ** server/mcp_server.py *)

Module McpServer.

Open Scope res_scope.

Record MCPServer : Type := mk_MCPServer { web_search_tool : WebSearchTool }.

Definition format_result (result : SearchResult) : json :=
  JObj [("title", JStr (title result));
        ("snippet", JStr (snippet result));
        ("url", JStr (url result));
        ("rank", JInt (Z.of_nat (rank result)))].

(** The body of the [try] of the [web_search] tool. *)
Definition web_search_try (self : MCPServer) (post : Provider)
  (elapsed_ms : float) (q : string) (m : option Z) : res json :=
  request <- WebSearchRequest_init q m ;;
  response <- search (web_search_tool self) post elapsed_ms request ;;
  let formatted_results := map format_result (results response) in
  Ok (JObj [("results", JList formatted_results);
            ("metadata",
             JObj [("query", JStr (response_query response));
                   ("total_results", JInt (Z.of_nat (total_results response)));
                   ("response_time_ms", JFloat (response_time_ms response));
                   ("api_provider", JStr "serper")]);
            ("status", JStr "success")]).

(** The dict each [except] clause returns. *)
Definition error_dict (error details error_type : string) : json :=
  JObj [("error", JStr error);
        ("details", JStr details);
        ("status", JStr "error");
        ("error_type", JStr error_type)].

(** The four [except] clauses, in the order of the source. *)
Definition web_search_except : list (clause json) :=
  [(WebSearchTimeoutError, fun e =>
      Ok (error_dict "Search request timed out" (msg e) "timeout"));
   (WebSearchAPIError, fun e =>
      Ok (error_dict "API error occurred" (msg e) "api_error"));
   (WebSearchError, fun e =>
      Ok (error_dict "Search error occurred" (msg e) "search_error"));
   (Exception, fun _ =>
      Ok (error_dict "Unexpected error occurred" "Internal server error"
                     "internal_error"))].

(** The [web_search] tool registered by [MCPServer._setup_tools]. *)
Definition web_search (self : MCPServer) (post : Provider)
  (elapsed_ms : float) (q : string) (m : option Z) : res json :=
  try_except (web_search_try self post elapsed_ms q m) web_search_except.

(** A response that carries a message and an error kind. *)
Definition is_error_response (v : json) : bool :=
  match v with
  | JObj d =>
      match dict_get d "status", dict_get d "error", dict_get d "error_type" with
      | Some (JStr st), Some (JStr _), Some (JStr _) => String.eqb st "error"
      | _, _, _ => false
      end
  | _ => false
  end.

End McpServer.

(** ** client/fastapi_client.py *)

Module FastapiClient.

(** A handle on a child process. *)
Definition Popen : Type := nat.

(** The attributes of an [MCPClient]. *)
Record MCPClient : Type := mk_MCPClient {
  process : option Popen;
  is_running : bool;
  timeout : Z
}.

(** [MCPClient.__init__] *)
Definition MCPClient_init : MCPClient :=
  {| process := None; is_running := false; timeout := 30 |}.

(** A method of the client: it reads and writes the attributes of [self]
    and returns or raises.  The attributes are kept when it raises. *)
Definition M (A : Type) : Type := MCPClient -> res A * MCPClient.

Definition ret {A} (a : A) : M A := fun self => (Ok a, self).

Definition bindM {A B} (m : M A) (k : A -> M B) : M B :=
  fun self =>
    match m self with
    | (Ok a, self') => k a self'
    | (Raise e, self') => (Raise e, self')
    end.

Definition lift {A} (r : res A) : M A := fun self => (r, self).

Definition raiseM {A} (c : exc_class) (m : string) : M A := lift (raise c m).

Definition get_self : M MCPClient := fun self => (Ok self, self).

Definition set_process (p : option Popen) : M unit :=
  fun self => (Ok tt, {| process := p; is_running := is_running self;
                         timeout := timeout self |}).

Definition set_is_running (b : bool) : M unit :=
  fun self => (Ok tt, {| process := process self; is_running := b;
                         timeout := timeout self |}).

Definition clauseM (A : Type) : Type := (exc_class * (exn -> M A))%type.

Fixpoint dispatchM {A} (e : exn) (clauses : list (clauseM A)) : M A :=
  match clauses with
  | [] => lift (Raise e)
  | (c, h) :: rest => if issubclass (cls e) c then h e else dispatchM e rest
  end.

(** [try: m  except ...: ...] *)
Definition try_exceptM {A} (m : M A) (clauses : list (clauseM A)) : M A :=
  fun self =>
    match m self with
    | (Ok a, self') => (Ok a, self')
    | (Raise e, self') => dispatchM e clauses self'
    end.

(** [try: m  finally: f]: [f] runs whatever [m] did; an exception of [f]
    replaces the outcome of [m]. *)
Definition try_finally {A} (m : M A) (f : M unit) : M A :=
  fun self =>
    match m self with
    | (r, self') =>
        match f self' with
        | (Ok _, self'') => (r, self'')
        | (Raise e, self'') => (Raise e, self'')
        end
    end.

Declare Scope client_scope.
Delimit Scope client_scope with client.
Notation "x <- m ;; k" := (bindM m (fun x => k))
  (at level 61, m at next level, right associativity) : client_scope.
Notation "m ;;; k" := (bindM m (fun _ => k))
  (at level 61, right associativity) : client_scope.
Open Scope client_scope.

(** *** The lifecycle of the child process *)

(** What the child does while it is stopped: [terminate()]; the wait of
    up to 5 seconds, which raises [TimeoutError] when the child has not
    exited by then; [kill()]. *)
Record StopWorld : Type := mk_StopWorld {
  terminate : res unit;
  wait : res unit;
  kill : res unit
}.

(** What the child does while it is started: [subprocess.Popen(...)], the
    [poll()] after the settling second ([None] while the child is alive),
    what its stderr holds, and how it reacts to the clean-up. *)
Record StartWorld : Type := mk_StartWorld {
  popen : res Popen;
  poll : option Z;
  stderr_read : string;
  on_cleanup : StopWorld
}.

(** [MCPClient.stop_server] *)
Definition stop_server (w : StopWorld) : M unit :=
  self <- get_self ;;
  if is_some (process self) && is_running self then
    try_finally
      (try_exceptM
         (lift (terminate w) ;;; lift (wait w))
         [(TimeoutError, fun _ => lift (kill w));
          (Exception, fun _ => ret tt)])
      (set_is_running false ;;; set_process None)
  else ret tt.

(** [MCPClient.cleanup] *)
Definition cleanup (w : StopWorld) : M unit := stop_server w.

(** [MCPClient.start_server] *)
Definition start_server (w : StartWorld) : M unit :=
  self <- get_self ;;
  if is_running self then ret tt
  else
    try_exceptM
      (p <- lift (popen w) ;;
       set_process (Some p) ;;;
       match poll w with
       | None => set_is_running true
       | Some _ =>
           raiseM RuntimeError
             ("MCP server failed to start: " ++ stderr_read w)
       end)
      [(Exception, fun e => cleanup (on_cleanup w) ;;; lift (Raise e))].

(** [MCPClient.check_health]; [poll_now] is what [self.process.poll()]
    answers if it is asked. *)
Definition check_health (poll_now : option Z) : M bool :=
  self <- get_self ;;
  if negb (is_running self) || negb (is_some (process self)) then ret false
  else if is_some poll_now then set_is_running false ;;; ret false
  else ret true.

Record HealthResponse : Type := mk_HealthResponse {
  health_status : string;
  mcp_server_running : bool;
  health_error : option string
}.

(** The [/health] handler *)
Definition health_check (poll_now : option Z) : M HealthResponse :=
  try_exceptM
    (is_healthy <- check_health poll_now ;;
     if is_healthy : bool then
       ret {| health_status := "healthy"; mcp_server_running := true;
              health_error := None |}
     else
       ret {| health_status := "unhealthy"; mcp_server_running := false;
              health_error := Some "MCP server is not responding" |})
    [(Exception, fun e =>
        ret {| health_status := "unhealthy"; mcp_server_running := false;
               health_error := Some (msg e) |})].

(** *** One JSON-RPC call *)

Record JSONRPCRequest : Type := mk_JSONRPCRequest {
  request_jsonrpc : string;
  request_id : string;
  method : string;
  params : dict
}.

Record JSONRPCResponse : Type := mk_JSONRPCResponse {
  jsonrpc : string;
  id : string;
  result : option dict;
  error : option dict
}.

(** A field declared [Optional[Dict[str, Any]] = None] *)
Definition as_optional_dict (v : option json) : option (option dict) :=
  match v with
  | None => Some None
  | Some JNull => Some None
  | Some (JObj d) => Some (Some d)
  | Some _ => None
  end.

(** [JSONRPCResponse] built from the keys of [response_data], which must
    be a dict (it is passed with a double star): [id] is required, [jsonrpc]
    defaults to "2.0", [result] and [error] to None; other keys are
    ignored. *)
Definition JSONRPCResponse_init (response_data : json) : res JSONRPCResponse :=
  match response_data with
  | JObj d =>
      let v := match dict_get d "jsonrpc" with
               | None => Some "2.0"
               | Some x => as_str x
               end in
      let i := match dict_get d "id" with
               | None => None
               | Some x => as_str x
               end in
      let r := as_optional_dict (dict_get d "result") in
      let e := as_optional_dict (dict_get d "error") in
      match v, i, r, e with
      | Some v', Some i', Some r', Some e' =>
          Ok (mk_JSONRPCResponse v' i' r' e')
      | _, _, _, _ =>
          validation_error "JSONRPCResponse"
            (count_failed [is_some v; is_some i; is_some r; is_some e])
      end
  | _ =>
      raise TypeError
        ("client.fastapi_client.JSONRPCResponse() argument after ** " ++
         "must be a mapping, not " ++ type_name response_data)
  end.

(** [bool(d)] for an optional dict: None and the empty dict are false. *)
Definition truthy_dict (d : option dict) : bool :=
  match d with
  | Some (_ :: _) => true
  | _ => false
  end.

Definition is_space (c : ascii) : bool :=
  let n := nat_of_ascii c in
  ((9 <=? n) && (n <=? 13) || (28 <=? n) && (n <=? 32))%nat.

Fixpoint lstrip (s : string) : string :=
  match s with
  | EmptyString => EmptyString
  | String c s' => if is_space c then lstrip s' else s
  end.

Fixpoint rstrip (s : string) : string :=
  match s with
  | EmptyString => EmptyString
  | String c s' =>
      let r := rstrip s' in
      if is_space c && String.eqb r "" then EmptyString else String c r
  end.

(** [s.strip()], for the ASCII white space *)
Definition strip (s : string) : string := rstrip (lstrip s).

(** What the pipes of the child do during one call: the id that [uuid4]
    draws, the write and the flush of the request line, and the
    [readline] bounded by the timeout, which raises [TimeoutError] when no
    line came in time and returns the empty string at end of file. *)
Record CallWorld : Type := mk_CallWorld {
  uuid4 : string;
  stdin_write : JSONRPCRequest -> res unit;
  stdin_flush : res unit;
  readline : Z -> res string
}.

Section Call.

(** Library functions of Python, taken as they are: [json.loads], [repr]
    of a value that is not a string, and pydantic's conversion of a value
    to a field declared [int]. *)
Variable json_loads : string -> res json.
Variable repr : json -> string.
Variable as_int : json -> option Z.

(** [str(v)], as an f-string formats [v] *)
Definition str (v : json) : string :=
  match v with
  | JStr s => s
  | _ => repr v
  end.

(** [MCPClient.call_tool] *)
Definition call_tool (meth : string) (args : dict) (w : CallWorld) : M dict :=
  self <- get_self ;;
  if negb (is_running self) || negb (is_some (process self)) then
    raiseM RuntimeError "MCP server is not running"
  else
    let request := {| request_jsonrpc := "2.0"; request_id := uuid4 w;
                      method := meth; params := args |} in
    try_exceptM
      (lift (stdin_write w request) ;;;
       lift (stdin_flush w) ;;;
       response_line <- lift (readline w (timeout self)) ;;
       if String.eqb response_line "" then
         raiseM RuntimeError "No response received from MCP server"
       else
         response_data <- lift (json_loads (strip response_line)) ;;
         response <- lift (JSONRPCResponse_init response_data) ;;
         if truthy_dict (error response) then
           let error_msg :=
             match error response with
             | Some d => match dict_get d "message" with
                         | Some m => m
                         | None => JStr "Unknown MCP error"
                         end
             | None => JStr "Unknown MCP error"
             end in
           raiseM RuntimeError ("MCP error: " ++ str error_msg)
         else if negb (truthy_dict (result response)) then
           raiseM RuntimeError "No result in MCP response"
         else
           match result response with
           | Some d => ret d
           | None => raiseM RuntimeError "No result in MCP response"
           end)
      [(TimeoutError, fun _ =>
          raiseM RuntimeError
            ("MCP tool call timed out after " ++ str_of_Z (timeout self)
             ++ " seconds"));
       (JSONDecodeError, fun e =>
          raiseM RuntimeError
            ("Invalid JSON response from MCP server: " ++ msg e));
       (Exception, fun e =>
          raiseM RuntimeError ("Error calling MCP tool: " ++ msg e))].

(** [MCPClient.search] *)
Definition search (q : string) (m : option Z) (w : CallWorld) : M dict :=
  let args := [("query", JStr q); ("max_results", JInt (or_default m 10))] in
  call_tool "web_search" args w.

(** *** The [/search] handler *)

Record SearchRequest : Type := mk_SearchRequest {
  query : string;
  max_results : option Z
}.

Record SearchResult : Type := mk_SearchResult {
  title : string;
  snippet : string;
  url : string;
  rank : Z
}.

Record SearchResponse : Type := mk_SearchResponse {
  results : list SearchResult;
  metadata : dict;
  status : string;
  response_error : option string;
  error_type : option string
}.

(** [raise HTTPException(status_code=..., detail=...)], which the
    framework turns into the HTTP response with that status. *)
Record HTTPException : Type := mk_HTTPException {
  status_code : Z;
  detail : string
}.

(** [v[key]] for a string key *)
Definition getitem (v : json) (key : string) : res json :=
  match v with
  | JObj d => match dict_get d key with
              | Some x => Ok x
              | None => raise KeyError ("'" ++ key ++ "'")
              end
  | JList _ => raise TypeError "list indices must be integers or slices, not str"
  | JStr _ => raise TypeError "string indices must be integers, not 'str'"
  | _ => raise TypeError ("'" ++ type_name v ++ "' object is not subscriptable")
  end.

(** [for item in v]: the elements of a list, the keys of a dict, the
    characters of a string. *)
Definition iter (v : json) : res (list json) :=
  match v with
  | JList l => Ok l
  | JObj d => Ok (map (fun kv => JStr (fst kv)) d)
  | JStr s => Ok (map (fun c => JStr (String c EmptyString))
                      (list_ascii_of_string s))
  | _ => raise TypeError ("'" ++ type_name v ++ "' object is not iterable")
  end.

(** A field declared [Optional[str] = None] *)
Definition as_optional_str (v : json) : option (option string) :=
  match v with
  | JNull => Some None
  | JStr s => Some (Some s)
  | _ => None
  end.

Definition SearchResult_init (t s u r : json) : res SearchResult :=
  match as_str t, as_str s, as_str u, as_int r with
  | Some t', Some s', Some u', Some r' => Ok (mk_SearchResult t' s' u' r')
  | t', s', u', r' =>
      validation_error "SearchResult"
        (count_failed [is_some t'; is_some s'; is_some u'; is_some r'])
  end.

Definition SearchResponse_init (rs : list SearchResult) (m st e et : json)
  : res SearchResponse :=
  let m' := match m with JObj d => Some d | _ => None end in
  match m', as_str st, as_optional_str e, as_optional_str et with
  | Some m'', Some st', Some e', Some et' =>
      Ok (mk_SearchResponse rs m'' st' e' et')
  | _, st', e', et' =>
      validation_error "SearchResponse"
        (count_failed [is_some m'; is_some st'; is_some e'; is_some et'])
  end.

(** The loop that fills [search_results]; the first item that fails ends
    it with its exception. *)
Fixpoint convert_items (items : list json) (search_results : list SearchResult)
  : res (list SearchResult) :=
  match items with
  | [] => Ok search_results
  | item :: rest =>
      (t <- getitem item "title" ;;
       s <- getitem item "snippet" ;;
       u <- getitem item "url" ;;
       r <- getitem item "rank" ;;
       search_result <- SearchResult_init t s u r ;;
       convert_items rest (search_results ++ [search_result])%list)%res
  end.

Definition get_or (d : dict) (key : string) (default : json) : json :=
  match dict_get d key with Some x => x | None => default end.

(** The [/search] handler [search_web]: the response it returns, or the
    [HTTPException] it raises. *)
Definition search_web (request : SearchRequest) (w : CallWorld)
  : M (SearchResponse + HTTPException) :=
  try_exceptM
    (result <- search (query request) (max_results request) w ;;
     match dict_get result "status" with
     | Some (JStr "success") =>
         items <- lift (iter (get_or result "results" (JList []))) ;;
         search_results <- lift (convert_items items []) ;;
         response <- lift (SearchResponse_init search_results
                             (get_or result "metadata" (JObj []))
                             (JStr "success") JNull JNull) ;;
         ret (inl response)
     | _ =>
         response <- lift (SearchResponse_init [] (JObj []) (JStr "error")
                             (get_or result "error" (JStr "Unknown error"))
                             (get_or result "error_type" (JStr "unknown"))) ;;
         ret (inl response)
     end)
    [(Exception, fun e =>
        ret (inr {| status_code := 500;
                    detail := "Search failed: " ++ msg e |}))].

(** *** Runs of the supervisor *)

(** The operations on the supervisor. *)
Inductive op : Type :=
  | Start (w : StartWorld)
  | Stop (w : StopWorld)
  | Health (poll_now : option Z)
  | Call (meth : string) (args : dict) (w : CallWorld).

Definition is_start (o : op) : bool :=
  match o with Start _ => true | _ => false end.

(** One operation: the state after it and, for a health check, its
    answer. *)
Definition step (o : op) (self : MCPClient) : option bool * MCPClient :=
  match o with
  | Start w => (None, snd (start_server w self))
  | Stop w => (None, snd (stop_server w self))
  | Health p =>
      match check_health p self with
      | (Ok b, self') => (Some b, self')
      | (Raise _, self') => (None, self')
      end
  | Call meth args w => (None, snd (call_tool meth args w self))
  end.

(** A run: the answers of its health checks, in order, and the last
    state. *)
Fixpoint run (ops : list op) (self : MCPClient) : list bool * MCPClient :=
  match ops with
  | [] => ([], self)
  | o :: rest =>
      match step o self with
      | (answer, self') =>
          match run rest self' with
          | (answers, final) =>
              (match answer with
               | Some b => b :: answers
               | None => answers
               end, final)
          end
      end
  end.

(** *** The application around the supervisor *)

(** The start-up half of [lifespan]: the exception of a failed start is
    logged and raised again, so the application does not come up. *)
Definition lifespan_startup (w : StartWorld) : M unit :=
  try_exceptM (start_server w) [(Exception, fun e => lift (Raise e))].

(** The shut-down half of [lifespan], after the [yield]. *)
Definition lifespan_shutdown (w : StopWorld) : M unit := cleanup w.

(** A request to one of the two handlers that use the supervisor, with
    what the child does while it is handled. *)
Inductive http_request : Type :=
  | PostSearch (request : SearchRequest) (w : CallWorld)
  | GetHealth (poll_now : option Z).

Inductive http_response : Type :=
  | SearchAnswer (answer : SearchResponse + HTTPException)
  | HealthAnswer (answer : HealthResponse).

Definition handle (r : http_request) : M http_response :=
  match r with
  | PostSearch request w =>
      answer <- search_web request w ;; ret (SearchAnswer answer)
  | GetHealth poll_now =>
      answer <- health_check poll_now ;; ret (HealthAnswer answer)
  end.

(** The requests of a run in which they are handled one after the
    other. *)
Fixpoint serve (requests : list http_request) : M (list http_response) :=
  match requests with
  | [] => ret []
  | r :: rest =>
      answer <- handle r ;;
      answers <- serve rest ;;
      ret (answer :: answers)
  end.

(** [lifespan] around such a run: start-up, the requests, shut-down. *)
Definition lifespan (w_start : StartWorld) (requests : list http_request)
  (w_stop : StopWorld) : M (list http_response) :=
  lifespan_startup w_start ;;;
  answers <- serve requests ;;
  lifespan_shutdown w_stop ;;;
  ret answers.

End Call.

End FastapiClient.

(** * The vocabulary of the properties *)

(** An entry the loop keeps: a dict whose [link] is a string that starts
    with http:// or https://, and whose [title] and [snippet], where it
    has them, are strings. *)
Definition optional_str (v : option json) : bool :=
  match v with
  | None => true
  | Some (JStr _) => true
  | Some _ => false
  end.

Definition well_formed (entry : json) : bool :=
  match entry with
  | JObj d =>
      optional_str (dict_get d "title") &&
      optional_str (dict_get d "snippet") &&
      match dict_get d "link" with
      | Some (JStr u) => is_http_url u
      | _ => false
      end
  | _ => false
  end.

Definition text_of (v : option json) (default : string) : string :=
  match v with
  | Some (JStr s) => s
  | _ => default
  end.

(** The result made of a kept entry that stands at index [i]. *)
Definition result_of (i : nat) (entry : json) : SearchResult :=
  match entry with
  | JObj d =>
      {| title := text_of (dict_get d "title") "No title";
         snippet := text_of (dict_get d "snippet") "No description";
         url := text_of (dict_get d "link") "";
         rank := i + 1 |}
  | _ => {| title := ""; snippet := ""; url := ""; rank := i + 1 |}
  end.

(** The entries of [l] that are kept, [l] starting at index [i]. *)
Fixpoint kept_from (i : nat) (l : list json) : list SearchResult :=
  match l with
  | [] => []
  | entry :: rest =>
      if well_formed entry then result_of i entry :: kept_from (S i) rest
      else kept_from (S i) rest
  end.

(** The 1-based positions in [l] of the entries that are kept. *)
Definition kept_positions (l : list json) : list nat :=
  map (fun ie => fst ie + 1)
      (filter (fun ie => well_formed (snd ie)) (enumerate l)).

(** The attributes of a supervisor agree: it is marked running only
    while it holds a handle. *)
Definition consistent (self : FastapiClient.MCPClient) : bool :=
  implb (FastapiClient.is_running self)
        (is_some (FastapiClient.process self)).

(** A result of the provider client as the front end shows it. *)
Definition to_client (r : Models.SearchResult) : FastapiClient.SearchResult :=
  {| FastapiClient.title := Models.title r;
     FastapiClient.snippet := Models.snippet r;
     FastapiClient.url := Models.url r;
     FastapiClient.rank := Z.of_nat (Models.rank r) |}.

(** The dict the worker returns for a response of the provider client. *)
Definition success_dict (response : WebSearchResponse) : dict :=
  [("results", JList (map McpServer.format_result (Models.results response)));
   ("metadata",
    JObj [("query", JStr (response_query response));
          ("total_results", JInt (Z.of_nat (total_results response)));
          ("response_time_ms", JFloat (response_time_ms response));
          ("api_provider", JStr "serper")]);
   ("status", JStr "success")].

(** The answer of [/health] for a given verdict. *)
Definition health_answer (healthy : bool) : FastapiClient.HealthResponse :=
  if healthy then
    {| FastapiClient.health_status := "healthy";
       FastapiClient.mcp_server_running := true;
       FastapiClient.health_error := None |}
  else
    {| FastapiClient.health_status := "unhealthy";
       FastapiClient.mcp_server_running := false;
       FastapiClient.health_error := Some "MCP server is not responding" |}.

Definition is_list (v : json) : bool :=
  match v with JList _ => true | _ => false end.

Definition is_health_poll_alive (r : FastapiClient.http_request) : bool :=
  match r with
  | FastapiClient.GetHealth (Some _) => false
  | _ => true
  end.

(** ** Sample inputs *)

Definition ex_tool : WebSearchTool :=
  {| api_key := "key"; WebSearch.timeout := 30; tool_max_results := 20;
     base_url := "https://google.serper.dev/search" |}.

Definition ex_request : WebSearchRequest :=
  {| Models.query := "test"; Models.max_results := Some 1%Z |}.

(** The entry the tests serve, and the payload that holds it. *)
Definition ex_entry : json :=
  JObj [("title", JStr "Test Result"); ("snippet", JStr "A snippet");
        ("link", JStr "https://example.com")].

Definition ex_payload : dict := [("organic", JList [ex_entry])].

(** A list whose first entry has no usable URL. *)
Definition ex_gap_entries : list json :=
  [JObj [("title", JStr "First"); ("link", JStr "")]; ex_entry].

Definition ex_gap_payload : json := JObj [("organic", JList ex_gap_entries)].

(** The payload of the test of a malformed response: no [organic] key. *)
Definition ex_malformed_payload : dict := [("not_organic", JList [])].

Definition ex_provider (payload : dict) : Provider :=
  fun _ _ => Responded 200 (Ok "") (Ok (JObj payload)).

Definition ex_stop : FastapiClient.StopWorld :=
  {| FastapiClient.terminate := Ok tt; FastapiClient.wait := Ok tt;
     FastapiClient.kill := Ok tt |}.

(** A child that exits with status 1 before the settling second is over. *)
Definition ex_start_exited : FastapiClient.StartWorld :=
  {| FastapiClient.popen := Ok 4242; FastapiClient.poll := Some 1%Z;
     FastapiClient.stderr_read := "ValueError: SERPER_API_KEY is required";
     FastapiClient.on_cleanup := ex_stop |}.

Definition ex_running : FastapiClient.MCPClient :=
  {| FastapiClient.process := Some 4242; FastapiClient.is_running := true;
     FastapiClient.timeout := 30 |}.

Definition ex_crashed : FastapiClient.MCPClient :=
  {| FastapiClient.process := Some 4242; FastapiClient.is_running := false;
     FastapiClient.timeout := 30 |}.

Definition dq : string := String (Ascii.ascii_of_nat 34) EmptyString.
Definition nl : string := String (Ascii.ascii_of_nat 10) EmptyString.

(** A response line with an id and the empty mapping as its result. *)
Definition ex_line : string :=
  "{" ++ dq ++ "jsonrpc" ++ dq ++ ": " ++ dq ++ "2.0" ++ dq ++ ", " ++
  dq ++ "id" ++ dq ++ ": " ++ dq ++ "1" ++ dq ++ ", " ++
  dq ++ "result" ++ dq ++ ": {}}" ++ nl.

Definition ex_line_data : json :=
  JObj [("jsonrpc", JStr "2.0"); ("id", JStr "1"); ("result", JObj [])].

Definition ex_loads (s : string) : res json :=
  if String.eqb s (FastapiClient.strip ex_line) then Ok ex_line_data
  else raise JSONDecodeError "Expecting value: line 1 column 1 (char 0)".

Definition ex_repr (v : json) : string := type_name v.

Definition ex_as_int (v : json) : option Z :=
  match v with JInt z => Some z | _ => None end.

Definition ex_call (line : res string) : FastapiClient.CallWorld :=
  {| FastapiClient.uuid4 := "1";
     FastapiClient.stdin_write := fun _ => Ok tt;
     FastapiClient.stdin_flush := Ok tt;
     FastapiClient.readline := fun _ => line |}.

Definition ex_ops : list FastapiClient.op :=
  [FastapiClient.Health None; FastapiClient.Stop ex_stop;
   FastapiClient.Call "web_search" [] (ex_call (Ok ex_line));
   FastapiClient.Health None; FastapiClient.Health (Some 0%Z)].

Definition ex_search_request : FastapiClient.SearchRequest :=
  {| FastapiClient.query := "test"; FastapiClient.max_results := Some 1%Z |}.

(** More sample inputs: providers that answer a bad status or fail, a
    worker around [ex_tool], and children that resist the stop or live. *)
Definition ex_provider_status (status : Z) (text : string) : Provider :=
  fun _ _ => Responded status (Ok text) (Ok JNull).

Definition ex_provider_raises (e : exn) : Provider :=
  fun _ _ => PostRaises e.

Definition ex_server : McpServer.MCPServer :=
  {| McpServer.web_search_tool := ex_tool |}.

Definition ex_response : WebSearchResponse :=
  {| Models.results := [result_of 0 ex_entry];
     Models.metadata := [("api_provider", JStr "serper");
                         ("status_code", JInt 200);
                         ("request_timeout", JInt 30)];
     response_query := "test";
     total_results := 1;
     response_time_ms := 0%float |}.

Definition ex_rpc (id_field : string) (fields : dict) : json :=
  JObj (("jsonrpc", JStr "2.0") :: ("id", JStr id_field) :: fields).

Definition ex_loads_to (v : json) (s : string) : res json := Ok v.


Definition ex_stop_resists : FastapiClient.StopWorld :=
  {| FastapiClient.terminate := Ok tt;
     FastapiClient.wait := raise TimeoutError "";
     FastapiClient.kill := raise OSError "[Errno 1] Operation not permitted" |}.

Definition ex_start_alive : FastapiClient.StartWorld :=
  {| FastapiClient.popen := Ok 4243; FastapiClient.poll := None;
     FastapiClient.stderr_read := "";
     FastapiClient.on_cleanup := ex_stop |}.

Definition ex_start_no_spawn : FastapiClient.StartWorld :=
  {| FastapiClient.popen := raise OSError "[Errno 2] No such file or directory";
     FastapiClient.poll := None;
     FastapiClient.stderr_read := "";
     FastapiClient.on_cleanup := ex_stop |}.

Definition ex_requests : list FastapiClient.http_request :=
  [FastapiClient.GetHealth None;
   FastapiClient.PostSearch ex_search_request (ex_call (Ok ex_line));
   FastapiClient.GetHealth None].

(** * Properties *)

(** ** The class hierarchy and the handlers *)

Lemma issubclass_Exception (c : exc_class) : issubclass c Exception = true.
Proof. destruct c; reflexivity. Qed.

Lemma try_except_Exception {A} (m : res A) (h : exn -> res A) :
  try_except m [(Exception, h)] =
  match m with Ok a => Ok a | Raise e => h e end.
Proof.
  destruct m as [a | e]; simpl; [reflexivity |].
  now rewrite issubclass_Exception.
Qed.

(** ** Strings *)

Lemma prefix_append (a b : string) : String.prefix a (a ++ b) = true.
Proof.
  induction a as [| c a IH]; simpl.
  - now destruct b.
  - destruct (Ascii.ascii_dec c c) as [_ | n]; [exact IH | now elim n].
Qed.

Lemma contains_prefix (sub s : string) :
  String.prefix sub s = true -> contains sub s = true.
Proof. intros H. destruct s; simpl in *; now rewrite H. Qed.

Lemma contains_append_left (sub a s : string) :
  contains sub s = true -> contains sub (a ++ s) = true.
Proof.
  intros H. induction a as [| c a IH]; simpl; [exact H |].
  rewrite IH. apply orb_true_r.
Qed.

(** A text that holds [sub] between two others contains it. *)
Lemma contains_infix (sub a b : string) : contains sub (a ++ sub ++ b) = true.
Proof. apply contains_append_left, contains_prefix, prefix_append. Qed.

Lemma is_http_url_nonempty (u : string) :
  is_http_url u = true -> String.eqb u "" = false.
Proof. destruct u; [discriminate | reflexivity]. Qed.

(** ** The provider client: parsing of the result list *)

Section ParseResults.

(** One entry: kept with its result, or passed over, on an unusable URL
    as on an exception. *)
Lemma parse_entry_kept (i : nat) (entry : json) :
  try_except (parse_entry i entry) [(Exception, fun _ => Ok None)] =
  Ok (if well_formed entry then Some (result_of i entry) else None).
Proof.
  destruct entry as [| b | z | f | s | l | d]; try reflexivity.
  unfold parse_entry, well_formed, result_of, get. simpl bind.
  destruct (dict_get d "title") as [t |] eqn:Et;
    destruct (dict_get d "snippet") as [sn |] eqn:Es;
    destruct (dict_get d "link") as [u |] eqn:Eu; simpl.
  all: try (destruct t as [| | | | t | |]); try (destruct sn as [| | | | sn | |]);
       try (destruct u as [| bu | zu | fu | u | lu | du]); simpl;
       try reflexivity.
  all: try (destruct bu; reflexivity).
  all: try (destruct (Z.eqb zu 0); reflexivity).
  all: try (destruct (PrimFloat.eqb fu 0); reflexivity).
  all: try (destruct lu; reflexivity).
  all: try (destruct du; reflexivity).
  all: unfold SearchResult_init, validate_url; simpl;
       destruct (is_http_url u) eqn:Hu;
       [ rewrite (is_http_url_nonempty u Hu) | destruct (String.eqb u "") ];
       simpl; rewrite ?Hu; reflexivity.
Qed.

Lemma loop_body_kept (results : list SearchResult) (i : nat) (entry : json) :
  loop_body results (i, entry) =
  if well_formed entry then (results ++ [result_of i entry])%list else results.
Proof.
  unfold loop_body. simpl fst. simpl snd. rewrite parse_entry_kept.
  now destruct (well_formed entry).
Qed.

(** The loop appends, to what it has, the kept entries in order. *)
Lemma loop_kept_from (l : list json) : forall (i : nat) (acc : list SearchResult),
  fold_left loop_body (combine (seq i (List.length l)) l) acc =
  (acc ++ kept_from i l)%list.
Proof.
  induction l as [| entry rest IH]; intros i acc; simpl.
  - now rewrite app_nil_r.
  - rewrite loop_body_kept, IH.
    destruct (well_formed entry); [| reflexivity].
    now rewrite <- app_assoc.
Qed.

(** With a list under [organic], parsing returns the kept entries. *)
Lemma parse_results_list (data : json) (q : string) (l : list json) :
  get data "organic" (JList []) = Ok (JList l) ->
  _parse_results data q = Ok (kept_from 0 l).
Proof.
  intros H. unfold _parse_results. rewrite H. simpl.
  unfold enumerate. now rewrite loop_kept_from.
Qed.

(** Parsing returns only that way. *)
Lemma parse_results_inv (data : json) (q : string) (rs : list SearchResult) :
  _parse_results data q = Ok rs ->
  exists l, get data "organic" (JList []) = Ok (JList l) /\ rs = kept_from 0 l.
Proof.
  intros H. unfold _parse_results in H.
  destruct (get data "organic" (JList [])) as [v | e] eqn:G.
  - destruct v as [| b | z | f | s | l | d]; simpl in H; try discriminate.
    exists l. split; [reflexivity |].
    unfold enumerate in H. rewrite loop_kept_from in H. now injection H.
  - simpl in H. rewrite issubclass_Exception in H. discriminate.
Qed.

Lemma map_rank_kept_from (l : list json) : forall i,
  map rank (kept_from i l) =
  map (fun ie => fst ie + 1)
      (filter (fun ie => well_formed (snd ie)) (combine (seq i (List.length l)) l)).
Proof.
  induction l as [| entry rest IH]; intros i; simpl; [reflexivity |].
  destruct (well_formed entry) eqn:W; simpl; rewrite IH; [| reflexivity].
  now destruct entry.
Qed.

Lemma rank_kept_from_bounds (l : list json) : forall i,
  Forall (fun r => i + 1 <= rank r <= i + List.length l) (kept_from i l).
Proof.
  induction l as [| entry rest IH]; intros i; simpl; [constructor |].
  assert (T : Forall (fun r => i + 1 <= rank r <= i + S (List.length rest))
                     (kept_from (S i) rest)).
  { eapply Forall_impl; [| apply IH]. simpl. intros r Hr. lia. }
  destruct (well_formed entry) eqn:W; [| exact T].
  constructor; [| exact T].
  destruct entry; simpl; lia.
Qed.

Lemma rank_kept_from_sorted (l : list json) : forall i,
  StronglySorted lt (map rank (kept_from i l)).
Proof.
  induction l as [| entry rest IH]; intros i; simpl; [constructor |].
  destruct (well_formed entry) eqn:W; [| apply IH].
  simpl. constructor; [apply IH |].
  apply Forall_map.
  eapply Forall_impl; [| apply (rank_kept_from_bounds rest (S i))].
  simpl. intros r Hr. destruct entry; simpl; lia.
Qed.

(** Each kept result is the one made of the entry at its rank. *)
Lemma kept_from_source (l : list json) : forall i,
  Forall (fun r => exists entry,
            nth_error l (rank r - 1 - i) = Some entry /\
            well_formed entry = true /\ r = result_of (rank r - 1) entry)
         (kept_from i l).
Proof.
  induction l as [| entry rest IH]; intros i; simpl; [constructor |].
  assert (T : Forall (fun r => exists e,
                        nth_error (entry :: rest) (rank r - 1 - i) = Some e /\
                        well_formed e = true /\ r = result_of (rank r - 1) e)
                     (kept_from (S i) rest)).
  { pose proof (rank_kept_from_bounds rest (S i)) as B.
    pose proof (IH (S i)) as K.
    rewrite Forall_forall in *. intros r Hr.
    destruct (K r Hr) as [e [N [W E]]]. specialize (B r Hr). simpl in B.
    exists e. split; [| now split].
    replace (rank r - 1 - i) with (S (rank r - 1 - S i)) by lia. exact N. }
  destruct (well_formed entry) eqn:W; [| exact T].
  constructor; [| exact T].
  exists entry.
  assert (R : rank (result_of i entry) = i + 1) by now destruct entry.
  rewrite R. replace (i + 1 - 1 - i) with 0 by lia.
  replace (i + 1 - 1) with i by lia. now repeat split.
Qed.

(** When every entry is kept, the results are the entries in order. *)
Lemma kept_from_all (l : list json) : forall i,
  Forall (fun entry => well_formed entry = true) l ->
  kept_from i l = map (fun ie => result_of (fst ie) (snd ie))
                      (combine (seq i (List.length l)) l).
Proof.
  induction l as [| entry rest IH]; intros i H; simpl; [reflexivity |].
  inversion H as [| ? ? W T]; subst. rewrite W, IH by exact T. reflexivity.
Qed.

Lemma rank_result_of (i : nat) (entry : json) : rank (result_of i entry) = i + 1.
Proof. now destruct entry. Qed.

Lemma url_result_of (i : nat) (entry : json) :
  well_formed entry = true -> is_http_url (url (result_of i entry)) = true.
Proof.
  destruct entry as [| | | | | | d]; simpl; try discriminate.
  intros H. apply andb_prop in H as [_ H].
  destruct (dict_get d "link") as [[| | | | u | |] |]; try discriminate.
  exact H.
Qed.

Lemma kept_from_urls (l : list json) : forall i,
  Forall (fun r => is_http_url (url r) = true) (kept_from i l).
Proof.
  induction l as [| entry rest IH]; intros i; simpl; [constructor |].
  destruct (well_formed entry) eqn:W; [| apply IH].
  constructor; [now apply url_result_of | apply IH].
Qed.

End ParseResults.

(** ** The provider client: [search] *)

Lemma fetch_200 (tool : WebSearchTool) (post : Provider)
  (request : WebSearchRequest) (text : res string) (data : json) :
  post (query request) (payload_num tool request) = Responded 200 text (Ok data) ->
  fetch tool post request = Ok data.
Proof. intros H. unfold fetch. now rewrite H. Qed.

(** [search] returns only what [_parse_results] returned. *)
Lemma search_inv (tool : WebSearchTool) (post : Provider) (elapsed : float)
  (request : WebSearchRequest) (response : WebSearchResponse) :
  search tool post elapsed request = Ok response ->
  exists data,
    fetch tool post request = Ok data /\
    _parse_results data (query request) = Ok (results response) /\
    total_results response = List.length (results response).
Proof.
  unfold search. intros H.
  destruct (fetch tool post request) as [data | e]; [| discriminate].
  exists data. split; [reflexivity |]. simpl in H.
  rewrite try_except_Exception in H.
  destruct (_parse_results data (query request)) as [rs | e]; simpl in H;
    [| discriminate].
  injection H as <-. now split.
Qed.

Lemma map_rank_result_of (l : list json) : forall i,
  map rank (map (fun ie => result_of (fst ie) (snd ie))
                (combine (seq i (List.length l)) l)) =
  seq (i + 1) (List.length l).
Proof.
  induction l as [| entry rest IH]; intros i; simpl; [reflexivity |].
  rewrite rank_result_of. f_equal. now rewrite IH, Nat.add_succ_l.
Qed.

(** C1, as amended.  For a payload whose [organic] field is the list [l],
    parsing returns, and the surviving results stand in the original
    relative order, each with the 1-based position of its entry in [l] as
    its rank: the ranks are the positions of the kept entries, they
    increase strictly, and the result of rank [n] is made of the [n]-th
    entry of [l]. *)
Theorem parse_results_rank_is_provider_position
  (data : json) (q : string) (l : list json) :
  get data "organic" (JList []) = Ok (JList l) ->
  exists rs,
    _parse_results data q = Ok rs /\
    map rank rs = kept_positions l /\
    StronglySorted lt (map rank rs) /\
    Forall (fun r => exists entry,
              nth_error l (rank r - 1) = Some entry /\
              well_formed entry = true /\
              r = result_of (rank r - 1) entry) rs.
Proof.
  intros H. exists (kept_from 0 l). split; [now apply parse_results_list |].
  split; [apply map_rank_kept_from |].
  split; [apply rank_kept_from_sorted |].
  eapply Forall_impl; [| apply (kept_from_source l 0)].
  simpl. intros r [entry [N W]]. exists entry.
  now rewrite Nat.sub_0_r in N.
Qed.

(** C8.  When the provider answers 200 with a payload whose [organic] list
    holds N well-formed entries, [search] returns exactly N results, with
    the ranks 1..N, the k-th result made of the k-th entry. *)
Theorem search_well_formed_entries_all_ranked
  (tool : WebSearchTool) (post : Provider) (elapsed : float)
  (request : WebSearchRequest) (text : res string) (d : dict) (l : list json) :
  post (query request) (payload_num tool request)
    = Responded 200 text (Ok (JObj d)) ->
  dict_get d "organic" = Some (JList l) ->
  Forall (fun entry => well_formed entry = true) l ->
  exists response,
    search tool post elapsed request = Ok response /\
    List.length (results response) = List.length l /\
    total_results response = List.length l /\
    map rank (results response) = seq 1 (List.length l) /\
    results response =
      map (fun ie => result_of (fst ie) (snd ie)) (enumerate l).
Proof.
  intros P O W.
  assert (R : _parse_results (JObj d) (query request)
              = Ok (map (fun ie => result_of (fst ie) (snd ie)) (enumerate l))).
  { rewrite (parse_results_list (JObj d) (query request) l).
    - now rewrite kept_from_all.
    - simpl. now rewrite O. }
  assert (L : List.length (map (fun ie => result_of (fst ie) (snd ie))
                               (enumerate l)) = List.length l).
  { unfold enumerate.
    rewrite length_map, length_combine, length_seq. apply Nat.min_id. }
  unfold search. rewrite (fetch_200 tool post request text (JObj d) P).
  simpl bind. rewrite R. simpl.
  eexists. split; [reflexivity |]. simpl.
  repeat split; try exact L.
  unfold enumerate. apply (map_rank_result_of l 0).
Qed.

(** C2, what the code does.  When the provider answers 200 with a dict
    that has no [organic] key, [search] does not fail: it returns a
    response with an empty result list. *)
Theorem search_missing_organic_returns_empty
  (tool : WebSearchTool) (post : Provider) (elapsed : float)
  (request : WebSearchRequest) (text : res string) (d : dict) :
  post (query request) (payload_num tool request)
    = Responded 200 text (Ok (JObj d)) ->
  dict_get d "organic" = None ->
  exists response,
    search tool post elapsed request = Ok response /\
    results response = [] /\ total_results response = 0.
Proof.
  intros P O. unfold search.
  rewrite (fetch_200 tool post request text (JObj d) P). simpl bind.
  rewrite (parse_results_list (JObj d) (query request) []).
  - simpl. eexists. split; [reflexivity |]. now split.
  - simpl. now rewrite O.
Qed.

(** A payload that is not a dict, or whose [organic] field is there and
    is not a list, does make [search] fail. *)
Lemma search_organic_not_list_raises
  (tool : WebSearchTool) (post : Provider) (elapsed : float)
  (request : WebSearchRequest) (text : res string) (data : json) :
  post (query request) (payload_num tool request) = Responded 200 text (Ok data) ->
  (forall l, get data "organic" (JList []) <> Ok (JList l)) ->
  exists m, search tool post elapsed request = Raise (mk_exn WebSearchError m).
Proof.
  intros P N. unfold search. rewrite (fetch_200 tool post request text data P).
  simpl bind. rewrite try_except_Exception.
  destruct (_parse_results data (query request)) as [rs | e] eqn:R.
  - apply parse_results_inv in R as [l [G _]]. now elim (N l).
  - eexists. reflexivity.
Qed.

(** The validator of [SearchResult] lets only such a URL through. *)
Lemma SearchResult_init_url (t s u : json) (r : nat) (sr : SearchResult) :
  SearchResult_init t s u r = Ok sr -> is_http_url (url sr) = true.
Proof.
  unfold SearchResult_init, validate_url. intros H.
  destruct (as_str t), (as_str s), (as_str u) as [v |]; simpl in H;
    try discriminate.
  destruct (is_http_url v) eqn:Hv; simpl in H; [| discriminate].
  injection H as <-. exact Hv.
Qed.

(** C9.  Every result that the parsing returns, and so every result of a
    response of [search], has a url that starts with http:// or https://,
    whatever the payload holds; no [SearchResult] is built with another
    url. *)
Theorem results_urls_start_with_http :
  (forall data q rs,
      _parse_results data q = Ok rs ->
      Forall (fun r => is_http_url (url r) = true) rs) /\
  (forall tool post elapsed request response,
      search tool post elapsed request = Ok response ->
      Forall (fun r => is_http_url (url r) = true) (results response)) /\
  (forall t s u r sr,
      SearchResult_init t s u r = Ok sr -> is_http_url (url sr) = true).
Proof.
  assert (P : forall data q rs,
             _parse_results data q = Ok rs ->
             Forall (fun r => is_http_url (url r) = true) rs).
  { intros data q rs H. apply parse_results_inv in H as [l [_ ->]].
    apply kept_from_urls. }
  split; [exact P |]. split; [| exact SearchResult_init_url].
  intros tool post elapsed request response H.
  apply search_inv in H as [data [_ [H _]]]. now apply P in H.
Qed.

(** ** The worker's handler *)

(** C5.  Whatever exception the handling of a request raises, of whatever
    class, the [except] clauses of [web_search] turn it into a returned
    error response with a message and an error kind; so [web_search]
    always returns, with the response of its body when the body returned
    and with an error response when the body raised. *)
Theorem web_search_catches_every_exception :
  (forall e : exn,
      exists response,
        try_except (Raise e) McpServer.web_search_except = Ok response /\
        McpServer.is_error_response response = true) /\
  (forall self post elapsed q m,
      exists response,
        McpServer.web_search self post elapsed q m = Ok response /\
        match McpServer.web_search_try self post elapsed q m with
        | Ok v => response = v
        | Raise _ => McpServer.is_error_response response = true
        end).
Proof.
  assert (H : forall e : exn,
             exists response,
               try_except (Raise e) McpServer.web_search_except = Ok response /\
               McpServer.is_error_response response = true).
  { intros [c m]. destruct c; simpl; eexists; split; reflexivity. }
  split; [exact H |].
  intros self post elapsed q m. unfold McpServer.web_search.
  destruct (McpServer.web_search_try self post elapsed q m) as [v | e].
  - exists v. now split.
  - exact (H e).
Qed.

(** The kind of the error response follows the class of the exception;
    the [except] clauses are tried from the most specific class on. *)
Lemma web_search_error_kinds (m : string) :
  try_except (raise WebSearchTimeoutError m) McpServer.web_search_except
    = Ok (McpServer.error_dict "Search request timed out" m "timeout") /\
  try_except (raise WebSearchAPIError m) McpServer.web_search_except
    = Ok (McpServer.error_dict "API error occurred" m "api_error") /\
  try_except (raise WebSearchError m) McpServer.web_search_except
    = Ok (McpServer.error_dict "Search error occurred" m "search_error") /\
  try_except (raise ValidationError m) McpServer.web_search_except
    = Ok (McpServer.error_dict "Unexpected error occurred"
            "Internal server error" "internal_error").
Proof. repeat split. Qed.

(** ** The supervisor *)

Section Supervisor.

Import FastapiClient.

Lemma stop_server_not_running (w : StopWorld) (self : MCPClient) :
  is_running self = false -> stop_server w self = (Ok tt, self).
Proof.
  intros H. unfold stop_server, bindM, get_self. rewrite H.
  now rewrite andb_false_r.
Qed.

Lemma stop_server_flag (w : StopWorld) (self : MCPClient) :
  is_running (snd (stop_server w self)) = true -> is_running self = true.
Proof.
  destruct (is_running self) eqn:R; [reflexivity |].
  rewrite stop_server_not_running by exact R. simpl. congruence.
Qed.

(** A stop that finds the supervisor running releases the handle too. *)
Lemma stop_server_running_releases (w : StopWorld) (self : MCPClient) (p : Popen) :
  is_running self = true -> process self = Some p ->
  snd (stop_server w self)
  = {| process := None; is_running := false; timeout := timeout self |}.
Proof.
  intros R P. unfold stop_server, bindM, get_self. rewrite R, P. simpl.
  unfold try_finally, try_exceptM, bindM, lift.
  destruct (terminate w) as [[] | e]; simpl.
  - destruct (wait w) as [[] | e]; simpl; [reflexivity |].
    destruct (issubclass (cls e) TimeoutError); simpl.
    + now destruct (kill w).
    + now rewrite issubclass_Exception.
  - destruct (issubclass (cls e) TimeoutError); simpl.
    + now destruct (kill w).
    + now rewrite issubclass_Exception.
Qed.

Lemma check_health_not_running (poll_now : option Z) (self : MCPClient) :
  is_running self = false -> check_health poll_now self = (Ok false, self).
Proof. intros H. unfold check_health, bindM, get_self. now rewrite H. Qed.

Lemma check_health_flag (poll_now : option Z) (self : MCPClient) :
  is_running (snd (check_health poll_now self)) = true -> is_running self = true.
Proof.
  destruct (is_running self) eqn:R; [reflexivity |].
  rewrite check_health_not_running by exact R. simpl. congruence.
Qed.

(** A start that does not find the child alive leaves the attributes of
    a stopped supervisor as they are, but for the handle. *)
Lemma start_server_flag (w : StartWorld) (self : MCPClient) :
  is_running self = false ->
  is_running (snd (start_server w self)) = true ->
  is_ok (popen w) = true /\ poll w = None.
Proof.
  intros R. unfold start_server, bindM, get_self. rewrite R.
  unfold try_exceptM, bindM, lift.
  destruct (popen w) as [p | e]; simpl.
  - destruct (poll w) as [code |]; simpl; [| now split].
    unfold cleanup, set_process.
    rewrite stop_server_not_running by (simpl; exact R).
    simpl. rewrite R. discriminate.
  - rewrite issubclass_Exception. unfold bindM, cleanup.
    rewrite stop_server_not_running by exact R.
    simpl. rewrite R. discriminate.
Qed.

Lemma check_health_exited (self : MCPClient) (p : Popen) (code : Z) :
  is_running self = true -> process self = Some p ->
  check_health (Some code) self
  = (Ok false, {| process := Some p; is_running := false;
                  timeout := timeout self |}).
Proof.
  intros R P. unfold check_health, bindM, get_self. rewrite R, P. simpl.
  unfold set_is_running, ret. now rewrite P.
Qed.

(** C7.  When the supervisor is running and the poll of the health check
    answers an exit status, [check_health] answers False and clears the
    running flag, and [/health] reports [mcp_server_running] false. *)
Theorem health_check_reports_exited_child
  (self : MCPClient) (p : Popen) (code : Z) :
  is_running self = true -> process self = Some p ->
  exists stopped,
    check_health (Some code) self = (Ok false, stopped) /\
    is_running stopped = false /\
    exists response,
      health_check (Some code) self = (Ok response, stopped) /\
      mcp_server_running response = false /\
      health_status response = "unhealthy".
Proof.
  intros R P. eexists. split; [exact (check_health_exited self p code R P) |].
  split; [reflexivity |].
  unfold health_check, try_exceptM, bindM.
  rewrite (check_health_exited self p code R P). simpl.
  eexists. split; [reflexivity |]. now split.
Qed.

(** C4, what the code does.  When [start_server] finds that the child
    exited during the settling second, it raises, and its clean-up does
    nothing: the handle of the child stays in [process]. *)
Theorem start_server_exited_child_keeps_handle
  (w : StartWorld) (self : MCPClient) (p : Popen) (code : Z) :
  is_running self = false -> popen w = Ok p -> poll w = Some code ->
  start_server w self =
  (Raise (mk_exn RuntimeError ("MCP server failed to start: " ++ stderr_read w)),
   {| process := Some p; is_running := false; timeout := timeout self |}).
Proof.
  intros R P L. unfold start_server, bindM, get_self. rewrite R.
  unfold try_exceptM, bindM, lift. rewrite P, L. simpl.
  unfold bindM, cleanup, set_process.
  rewrite stop_server_not_running by exact R.
  simpl. rewrite R. reflexivity.
Qed.

End Supervisor.

(** ** One call to the worker *)

Section CallTool.

Import FastapiClient.

Variable json_loads : string -> res json.
Variable repr : json -> string.
Variable as_int : json -> option Z.

(** A call that reads a line which decodes and validates as a response:
    what it does depends on the two optional fields alone. *)
Lemma call_tool_response (meth : string) (args : dict) (w : CallWorld)
  (self : MCPClient) (p : Popen) (line : string) (data : json)
  (response : JSONRPCResponse) :
  is_running self = true -> process self = Some p ->
  (forall request, stdin_write w request = Ok tt) -> stdin_flush w = Ok tt ->
  readline w (timeout self) = Ok line -> String.eqb line "" = false ->
  json_loads (strip line) = Ok data ->
  JSONRPCResponse_init data = Ok response ->
  truthy_dict (error response) = false ->
  call_tool json_loads repr meth args w self =
  (match result response with
   | Some (item :: rest) => Ok (item :: rest)
   | _ => Raise (mk_exn RuntimeError
                   "Error calling MCP tool: No result in MCP response")
   end, self).
Proof.
  intros R P W F L N D V E.
  unfold call_tool, bindM, get_self. rewrite R, P. simpl.
  unfold try_exceptM, bindM, lift. rewrite W, F, L, N, D, V, E.
  destruct (result response) as [[| item rest] |]; reflexivity.
Qed.

(** C3, what the code does.  A response line that decodes to a JSON-RPC
    response with no error and with the empty mapping as its result does
    not make the call return that mapping: the call raises, with the
    message of a response that has no result. *)
Theorem call_tool_empty_result_raises (meth : string) (args : dict)
  (w : CallWorld) (self : MCPClient) (p : Popen) (line : string) (data : json)
  (response : JSONRPCResponse) :
  is_running self = true -> process self = Some p ->
  (forall request, stdin_write w request = Ok tt) -> stdin_flush w = Ok tt ->
  readline w (timeout self) = Ok line -> String.eqb line "" = false ->
  json_loads (strip line) = Ok data ->
  JSONRPCResponse_init data = Ok response ->
  truthy_dict (error response) = false ->
  result response = Some [] ->
  call_tool json_loads repr meth args w self =
  (Raise (mk_exn RuntimeError
            "Error calling MCP tool: No result in MCP response"), self).
Proof.
  intros R P W F L N D V E Z.
  rewrite (call_tool_response meth args w self p line data response); trivial.
  now rewrite Z.
Qed.

(** With a result that is not empty the call returns it, and with no
    result at all it raises. *)
Lemma call_tool_result_or_none (meth : string) (args : dict)
  (w : CallWorld) (self : MCPClient) (p : Popen) (line : string) (data : json)
  (response : JSONRPCResponse) :
  is_running self = true -> process self = Some p ->
  (forall request, stdin_write w request = Ok tt) -> stdin_flush w = Ok tt ->
  readline w (timeout self) = Ok line -> String.eqb line "" = false ->
  json_loads (strip line) = Ok data ->
  JSONRPCResponse_init data = Ok response ->
  truthy_dict (error response) = false ->
  (forall item rest, result response = Some (item :: rest) ->
     call_tool json_loads repr meth args w self = (Ok (item :: rest), self)) /\
  (result response = None ->
     exists m, call_tool json_loads repr meth args w self
               = (Raise (mk_exn RuntimeError m), self)).
Proof.
  intros R P W F L N D V E.
  rewrite (call_tool_response meth args w self p line data response); trivial.
  split.
  - intros item rest ->. reflexivity.
  - intros ->. eexists. reflexivity.
Qed.

Lemma call_tool_timeout (meth : string) (args : dict) (w : CallWorld)
  (self : MCPClient) (p : Popen) (e : exn) :
  is_running self = true -> process self = Some p ->
  (forall request, stdin_write w request = Ok tt) -> stdin_flush w = Ok tt ->
  readline w (timeout self) = Raise e -> cls e = TimeoutError ->
  call_tool json_loads repr meth args w self =
  (Raise (mk_exn RuntimeError
            ("MCP tool call " ++ "timed out" ++
             (" after " ++ str_of_Z (timeout self) ++ " seconds"))), self).
Proof.
  intros R P W F L C.
  unfold call_tool, bindM, get_self. rewrite R, P. simpl.
  unfold try_exceptM, bindM, lift. rewrite W, F, L. simpl.
  rewrite C. reflexivity.
Qed.

(** C6.  When the supervisor is running, the request line is written and
    no response line comes within the timeout, [call_tool] raises an
    error whose message contains "timed out", and the [/search] handler
    answers with status 500 and a detail that contains "timed out". *)
Theorem call_timeout_is_http_500 (request : SearchRequest) (meth : string)
  (args : dict) (w : CallWorld) (self : MCPClient) (p : Popen) (e : exn) :
  is_running self = true -> process self = Some p ->
  (forall r, stdin_write w r = Ok tt) -> stdin_flush w = Ok tt ->
  readline w (timeout self) = Raise e -> cls e = TimeoutError ->
  (exists m,
     call_tool json_loads repr meth args w self
       = (Raise (mk_exn RuntimeError m), self) /\
     contains "timed out" m = true) /\
  (exists d,
     search_web json_loads repr as_int request w self
       = (Ok (inr {| status_code := 500; detail := d |}), self) /\
     contains "timed out" d = true).
Proof.
  intros R P W F L C. split.
  - eexists. split.
    + exact (call_tool_timeout meth args w self p e R P W F L C).
    + exact (contains_infix "timed out" "MCP tool call "
               (" after " ++ str_of_Z (timeout self) ++ " seconds")).
  - unfold search_web, search, try_exceptM, bindM.
    rewrite (call_tool_timeout _ _ w self p e R P W F L C).
    simpl dispatchM. unfold ret, msg.
    eexists. split; [reflexivity |].
    exact (contains_infix "timed out" "Search failed: MCP tool call "
             (" after " ++ str_of_Z (timeout self) ++ " seconds")).
Qed.

(** *** Runs of the supervisor *)

(** A call leaves the attributes of the supervisor as they are. *)
Lemma call_tool_keeps_state (meth : string) (args : dict) (w : CallWorld)
  (self : MCPClient) :
  snd (call_tool json_loads repr meth args w self) = self.
Proof.
  unfold call_tool, bindM, get_self, raiseM, lift.
  destruct (negb (is_running self) || negb (is_some (process self)));
    [reflexivity |].
  unfold try_exceptM, bindM, lift, raiseM, ret.
  destruct (stdin_write w _) as [[] | e1]; simpl.
  2: { destruct (issubclass (cls e1) TimeoutError); [reflexivity |].
       destruct (issubclass (cls e1) JSONDecodeError); [reflexivity |].
       now rewrite issubclass_Exception. }
  destruct (stdin_flush w) as [[] | e2]; simpl.
  2: { destruct (issubclass (cls e2) TimeoutError); [reflexivity |].
       destruct (issubclass (cls e2) JSONDecodeError); [reflexivity |].
       now rewrite issubclass_Exception. }
  destruct (readline w (timeout self)) as [line | e3]; simpl.
  2: { destruct (issubclass (cls e3) TimeoutError); [reflexivity |].
       destruct (issubclass (cls e3) JSONDecodeError); [reflexivity |].
       now rewrite issubclass_Exception. }
  destruct (String.eqb line ""); simpl; [reflexivity |].
  destruct (json_loads (strip line)) as [data | e4]; simpl.
  2: { destruct (issubclass (cls e4) TimeoutError); [reflexivity |].
       destruct (issubclass (cls e4) JSONDecodeError); [reflexivity |].
       now rewrite issubclass_Exception. }
  destruct (JSONRPCResponse_init data) as [response | e5]; simpl.
  2: { destruct (issubclass (cls e5) TimeoutError); [reflexivity |].
       destruct (issubclass (cls e5) JSONDecodeError); [reflexivity |].
       now rewrite issubclass_Exception. }
  destruct (truthy_dict (error response)); simpl; [reflexivity |].
  destruct (truthy_dict (result response)); simpl; [| reflexivity].
  now destruct (result response).
Qed.

Lemma step_flag (o : op) (self : MCPClient) :
  is_running (snd (step json_loads repr o self)) = true ->
  is_running self = true \/
  exists w, o = Start w /\ is_ok (popen w) = true /\ poll w = None.
Proof.
  destruct (is_running self) eqn:R; [now left |]. intros H. right.
  destruct o as [w | w | p | meth args w]; simpl in H.
  - exists w. split; [reflexivity |]. now apply start_server_flag with self.
  - apply stop_server_flag in H. congruence.
  - rewrite check_health_not_running in H by exact R. simpl in H. congruence.
  - rewrite call_tool_keeps_state in H. congruence.
Qed.

Lemma step_stays_stopped (o : op) (self : MCPClient) :
  is_running self = false -> is_start o = false ->
  step json_loads repr o self = (None, self) \/ step json_loads repr o self = (Some false, self).
Proof.
  intros R S. destruct o as [w | w | p | meth args w]; simpl in *;
    [discriminate | | |].
  - left. now rewrite stop_server_not_running.
  - right. now rewrite check_health_not_running.
  - left. now rewrite call_tool_keeps_state.
Qed.

Lemma run_stays_stopped (ops : list op) : forall self,
  is_running self = false ->
  forallb (fun o => negb (is_start o)) ops = true ->
  Forall (fun healthy => healthy = false) (fst (run json_loads repr ops self)) /\
  is_running (snd (run json_loads repr ops self)) = false.
Proof.
  induction ops as [| o rest IH]; intros self R S; simpl.
  - now split.
  - simpl in S. apply andb_prop in S as [So Sr].
    apply negb_true_iff in So.
    destruct (IH self R Sr) as [A F].
    destruct (step_stays_stopped o self R So) as [E | E]; rewrite E;
      destruct (run json_loads repr rest self) as [answers final]; simpl in *; split;
      try assumption.
    now constructor.
Qed.

(** C10.  A step leaves the running flag set only if it was set before
    or the step is a start that spawned the child and polled it alive: a
    health check, a stop and a call never set it.  So from a state where the flag
    is not set, in a run without a start every health check answers
    unhealthy, and the flag is still not set at the end. *)
Theorem running_flag_set_only_by_successful_start :
  (forall o self,
      is_running (snd (step json_loads repr o self)) = true ->
      is_running self = true \/
      exists w, o = Start w /\ is_ok (popen w) = true /\ poll w = None) /\
  (forall ops self,
      is_running self = false ->
      forallb (fun o => negb (is_start o)) ops = true ->
      Forall (fun healthy => healthy = false) (fst (run json_loads repr ops self)) /\
      is_running (snd (run json_loads repr ops self)) = false).
Proof. split; [exact step_flag | exact run_stays_stopped]. Qed.

End CallTool.

(** * The properties on the sample inputs *)

Import FastapiClient.

(** C1 as the specification states it does not hold: of two entries of
    which the first has no usable URL, the one that survives has rank 2,
    so the ranks of the survivors are not 1..K. *)
Lemma parse_results_ranks_not_contiguous :
  ~ (forall (data : json) (q : string) (l : list json) (rs : list Models.SearchResult),
        get data "organic" (JList []) = Ok (JList l) ->
        _parse_results data q = Ok rs ->
        map Models.rank rs = seq 1 (List.length rs)).
Proof.
  intros H.
  specialize (H ex_gap_payload "test" ex_gap_entries _ eq_refl eq_refl).
  discriminate H.
Qed.

Lemma parse_results_rank_is_provider_position_witness :
  get ex_gap_payload "organic" (JList []) = Ok (JList ex_gap_entries) /\
  exists rs,
    _parse_results ex_gap_payload "test" = Ok rs /\
    map Models.rank rs = kept_positions ex_gap_entries /\
    StronglySorted lt (map Models.rank rs) /\
    Forall (fun r => exists entry,
              nth_error ex_gap_entries (Models.rank r - 1) = Some entry /\
              well_formed entry = true /\
              r = result_of (Models.rank r - 1) entry) rs.
Proof.
  split; [reflexivity |].
  apply (parse_results_rank_is_provider_position ex_gap_payload "test").
  reflexivity.
Defined.

Lemma search_well_formed_entries_all_ranked_witness :
  exists response,
    WebSearch.search ex_tool (ex_provider ex_payload) 0%float ex_request
      = Ok response /\
    List.length (Models.results response) = 1 /\
    Models.total_results response = 1 /\
    map Models.rank (Models.results response) = [1] /\
    Models.results response = [result_of 0 ex_entry].
Proof.
  apply (search_well_formed_entries_all_ranked ex_tool (ex_provider ex_payload)
           0%float ex_request (Ok "") ex_payload [ex_entry]).
  - reflexivity.
  - reflexivity.
  - repeat constructor.
Defined.

Lemma search_missing_organic_returns_empty_witness :
  exists response,
    WebSearch.search ex_tool (ex_provider ex_malformed_payload) 0%float ex_request
      = Ok response /\
    Models.results response = [] /\ Models.total_results response = 0.
Proof.
  apply (search_missing_organic_returns_empty ex_tool
           (ex_provider ex_malformed_payload) 0%float ex_request (Ok "")
           ex_malformed_payload); reflexivity.
Defined.

Lemma results_urls_start_with_http_witness :
  _parse_results ex_gap_payload "test" = Ok [result_of 1 ex_entry] /\
  Forall (fun r => is_http_url (Models.url r) = true) [result_of 1 ex_entry].
Proof.
  split; [reflexivity |].
  apply (proj1 results_urls_start_with_http ex_gap_payload "test").
  reflexivity.
Defined.

Lemma call_tool_empty_result_raises_witness :
  JSONRPCResponse_init ex_line_data
    = Ok {| jsonrpc := "2.0"; id := "1"; result := Some []; error := None |} /\
  call_tool ex_loads ex_repr "web_search" [] (ex_call (Ok ex_line)) ex_running =
  (Raise (mk_exn RuntimeError
            "Error calling MCP tool: No result in MCP response"), ex_running).
Proof.
  split; [reflexivity |].
  apply (call_tool_empty_result_raises ex_loads ex_repr "web_search" []
           (ex_call (Ok ex_line)) ex_running 4242 ex_line ex_line_data
           {| jsonrpc := "2.0"; id := "1"; result := Some []; error := None |});
    reflexivity.
Defined.

Lemma start_server_exited_child_keeps_handle_witness :
  start_server ex_start_exited MCPClient_init =
  (Raise (mk_exn RuntimeError
            "MCP server failed to start: ValueError: SERPER_API_KEY is required"),
   {| process := Some 4242; is_running := false; timeout := 30 |}).
Proof.
  apply (start_server_exited_child_keeps_handle ex_start_exited MCPClient_init
           4242 1%Z); reflexivity.
Defined.

Lemma call_timeout_is_http_500_witness :
  (exists m,
     call_tool ex_loads ex_repr "web_search" []
       (ex_call (raise TimeoutError "")) ex_running
       = (Raise (mk_exn RuntimeError m), ex_running) /\
     contains "timed out" m = true) /\
  (exists d,
     search_web ex_loads ex_repr ex_as_int ex_search_request
       (ex_call (raise TimeoutError "")) ex_running
       = (Ok (inr {| status_code := 500; detail := d |}), ex_running) /\
     contains "timed out" d = true).
Proof.
  apply (call_timeout_is_http_500 ex_loads ex_repr ex_as_int ex_search_request
           "web_search" [] (ex_call (raise TimeoutError "")) ex_running 4242
           (mk_exn TimeoutError "")); reflexivity.
Defined.

Lemma health_check_reports_exited_child_witness :
  exists stopped,
    check_health (Some 1%Z) ex_running = (Ok false, stopped) /\
    is_running stopped = false /\
    exists response,
      health_check (Some 1%Z) ex_running = (Ok response, stopped) /\
      mcp_server_running response = false /\
      health_status response = "unhealthy".
Proof.
  apply (health_check_reports_exited_child ex_running 4242 1%Z); reflexivity.
Defined.

Lemma running_flag_set_only_by_successful_start_witness :
  is_running ex_crashed = false /\
  Forall (fun healthy => healthy = false)
         (fst (run ex_loads ex_repr ex_ops ex_crashed)) /\
  is_running (snd (run ex_loads ex_repr ex_ops ex_crashed)) = false.
Proof.
  split; [reflexivity |].
  apply (proj2 (running_flag_set_only_by_successful_start ex_loads ex_repr)
           ex_ops ex_crashed); reflexivity.
Defined.

(** * Further properties of the provider client and of the worker *)

Section ProviderClient.

Variables (tool : WebSearchTool) (post : Provider) (elapsed : float).

(** What [WebSearchRequest] accepts. *)
Lemma WebSearchRequest_init_ok (q : string) (m : option Z)
  (request : WebSearchRequest) :
  WebSearchRequest_init q m = Ok request ->
  request = {| Models.query := q; Models.max_results := m |} /\
  1 <= String.length q <= 500 /\
  match m with Some k => (1 <= k <= 20)%Z | None => True end.
Proof.
  unfold WebSearchRequest_init. intros H.
  destruct (1 <=? String.length q)%nat eqn:A; [| discriminate].
  destruct (String.length q <=? 500)%nat eqn:B; [| discriminate].
  apply Nat.leb_le in A. apply Nat.leb_le in B.
  destruct m as [k |]; simpl in H.
  - destruct (1 <=? k)%Z eqn:C; [| discriminate].
    destruct (k <=? 20)%Z eqn:D; [| discriminate].
    injection H as <-. repeat split; try assumption; lia.
  - injection H as <-. repeat split; assumption.
Qed.

(** X1.  For a request that passed validation and a ceiling of at least
    1, the number of results asked of the provider is between 1 and the
    ceiling: it is the requested number cut at the ceiling, and the
    ceiling itself when the request names no number. *)
Theorem payload_num_within_ceiling (q : string) (m : option Z)
  (request : WebSearchRequest) :
  WebSearchRequest_init q m = Ok request ->
  (1 <= tool_max_results tool)%Z ->
  (1 <= payload_num tool request <= tool_max_results tool)%Z /\
  payload_num tool request =
    match m with
    | Some k => Z.min k (tool_max_results tool)
    | None => tool_max_results tool
    end.
Proof.
  intros H C. apply WebSearchRequest_init_ok in H as [-> [_ K]].
  unfold payload_num, or_default. simpl.
  destruct m as [k |].
  - destruct (Z.eqb_spec k 0) as [-> | _]; [lia |]. split; lia.
  - split; lia.
Qed.

(** The first [try] block raises nothing but the two errors of the
    client, the timeout only with its own message. *)
Lemma fetch_raises (request : WebSearchRequest) (e : exn) :
  fetch tool post request = Raise e ->
  cls e = WebSearchError \/
  e = mk_exn WebSearchTimeoutError
        ("Request timed out after " ++ str_of_Z (WebSearch.timeout tool)
         ++ " seconds").
Proof.
  unfold fetch, try_except.
  set (body := match post _ _ with PostRaises e0 => _ | Responded _ _ _ => _ end).
  destruct body as [data | e0]; [discriminate |].
  simpl. intros H.
  destruct (issubclass (cls e0) TimeoutError).
  - right. now injection H as <-.
  - destruct (issubclass (cls e0) ClientError).
    + left. now injection H as <-.
    + rewrite issubclass_Exception in H. left. now injection H as <-.
Qed.

(** What leaves [search] as an exception. *)
Lemma search_raises (request : WebSearchRequest) (e : exn) :
  WebSearch.search tool post elapsed request = Raise e ->
  cls e = WebSearchError \/
  e = mk_exn WebSearchTimeoutError
        ("Request timed out after " ++ str_of_Z (WebSearch.timeout tool)
         ++ " seconds").
Proof.
  unfold WebSearch.search. intros H.
  destruct (fetch tool post request) as [data | e0] eqn:F; simpl in H.
  - rewrite try_except_Exception in H.
    destruct (_parse_results data (Models.query request)); simpl in H;
      [discriminate |].
    left. now injection H as <-.
  - injection H as <-. exact (fetch_raises request e0 F).
Qed.

(** X2.  Every exception that leaves [search] is a [WebSearchError] or a
    [WebSearchTimeoutError]: a [WebSearchAPIError] raised on a bad HTTP
    status is caught by the catch-all of the same [try] and leaves as a
    plain [WebSearchError]. *)
Theorem search_raises_only_search_errors (request : WebSearchRequest) (e : exn) :
  WebSearch.search tool post elapsed request = Raise e ->
  issubclass (cls e) WebSearchError = true /\
  issubclass (cls e) WebSearchAPIError = false.
Proof.
  intros H. destruct (search_raises request e H) as [C | ->].
  - rewrite C. now split.
  - now split.
Qed.

(** X3.  A response of the provider with status 429, or with any other
    status than 200 whose text can be read, reaches the caller of the
    worker as a "search_error", never as an "api_error". *)
Theorem bad_status_reported_as_search_error (self : McpServer.MCPServer)
  (q : string) (m : option Z) (request : WebSearchRequest)
  (status : Z) (text : string) (body : res json) :
  WebSearchRequest_init q m = Ok request ->
  post (Models.query request) (payload_num (McpServer.web_search_tool self) request)
    = Responded status (Ok text) body ->
  status <> 200%Z ->
  McpServer.web_search self post elapsed q m =
  Ok (McpServer.error_dict "Search error occurred"
        ("Unexpected error: " ++
         (if Z.eqb status 429 then "API rate limit exceeded"
          else "API error " ++ str_of_Z status ++ ": " ++ text))
        "search_error").
Proof.
  intros V P N.
  unfold McpServer.web_search, McpServer.web_search_try. rewrite V. simpl bind.
  unfold WebSearch.search, fetch. rewrite P.
  destruct (Z.eqb_spec status 429) as [-> | N9]; [reflexivity |].
  destruct (Z.eqb_spec status 200) as [-> | _]; [now elim N |].
  reflexivity.
Qed.

(** The body of the handler, once the request is valid, is [search]. *)
Lemma web_search_try_valid (self : McpServer.MCPServer) (q : string)
  (m : option Z) (request : WebSearchRequest) :
  WebSearchRequest_init q m = Ok request ->
  McpServer.web_search_try self post elapsed q m =
  match WebSearch.search (McpServer.web_search_tool self) post elapsed request with
  | Ok response => Ok (JObj (success_dict response))
  | Raise e => Raise e
  end.
Proof.
  intros V. unfold McpServer.web_search_try. rewrite V. simpl bind.
  now destruct (WebSearch.search _ post elapsed request).
Qed.

End ProviderClient.

Section Worker.

Variables (self : McpServer.MCPServer) (post : Provider) (elapsed : float).



(** X5.  When the request to the provider times out, the caller of the
    worker gets an error response of kind "timeout" whose details name
    the configured timeout. *)
Theorem provider_timeout_reported_as_timeout (q : string) (m : option Z)
  (request : WebSearchRequest) (e : exn) :
  WebSearchRequest_init q m = Ok request ->
  post (Models.query request) (payload_num (McpServer.web_search_tool self) request)
    = PostRaises e ->
  issubclass (cls e) TimeoutError = true ->
  McpServer.web_search self post elapsed q m =
  Ok (McpServer.error_dict "Search request timed out"
        ("Request timed out after "
         ++ str_of_Z (WebSearch.timeout (McpServer.web_search_tool self))
         ++ " seconds")
        "timeout").
Proof.
  intros V P T.
  unfold McpServer.web_search, McpServer.web_search_try. rewrite V. simpl bind.
  unfold WebSearch.search, fetch. rewrite P. simpl. now rewrite T.
Qed.


(** X7.  Whatever the handler returns, its error kind is never
    "api_error": the clause for [WebSearchAPIError] cannot be reached. *)
Theorem web_search_never_reports_api_error (q : string) (m : option Z)
  (response : json) :
  McpServer.web_search self post elapsed q m = Ok response ->
  exists d, response = JObj d /\
            dict_get d "error_type" <> Some (JStr "api_error").
Proof.
  unfold McpServer.web_search. intros H.
  destruct (WebSearchRequest_init q m) as [request | e] eqn:V.
  - rewrite (web_search_try_valid post elapsed self q m request V) in H.
    destruct (WebSearch.search _ post elapsed request) as [r | e] eqn:S.
    + simpl in H. injection H as <-. eexists. split; [reflexivity |].
      discriminate.
    + destruct (search_raises _ post elapsed request e S) as [C | ->];
        [destruct e as [c t]; simpl in C; subst c |]; simpl in H;
        injection H as <-; (eexists; split; [reflexivity | discriminate]).
  - assert (T : McpServer.web_search_try self post elapsed q m = Raise e).
    { unfold McpServer.web_search_try. now rewrite V. }
    rewrite T in H.
    unfold WebSearchRequest_init, validation_error, raise in V.
    destruct (_ && _) in V; [discriminate |]. injection V as <-.
    simpl in H. injection H as <-.
    eexists. split; [reflexivity | discriminate].
Qed.

End Worker.

Section ParsedResults.

Lemma length_kept_from (l : list json) : forall i,
  List.length (kept_from i l) = List.length (filter well_formed l).
Proof.
  induction l as [| entry rest IH]; intros i; simpl; [reflexivity |].
  destruct (well_formed entry); simpl; now rewrite IH.
Qed.

Lemma filter_length_all {A} (f : A -> bool) (l : list A) :
  List.length (filter f l) = List.length l <-> Forall (fun x => f x = true) l.
Proof.
  induction l as [| x l IH]; simpl.
  - split; [constructor | reflexivity].
  - pose proof (filter_length_le f l) as B.
    destruct (f x) eqn:E; simpl.
    + split.
      * intros H. constructor; [exact E |]. apply IH. lia.
      * intros H. inversion H; subst. f_equal. now apply IH.
    + split; [lia |]. intros H. inversion H; subst. congruence.
Qed.

(** X8.  From a payload whose [organic] field is a list, the parsing
    returns as many results as the list has well-formed entries: never
    more than the list has entries, and as many exactly when every entry
    is well formed. *)
Theorem parse_results_counts_well_formed (data : json) (q : string)
  (l : list json) :
  get data "organic" (JList []) = Ok (JList l) ->
  exists rs,
    _parse_results data q = Ok rs /\
    List.length rs = List.length (filter well_formed l) /\
    List.length rs <= List.length l /\
    (List.length rs = List.length l <->
     Forall (fun entry => well_formed entry = true) l).
Proof.
  intros H. exists (kept_from 0 l).
  split; [now apply parse_results_list |].
  rewrite length_kept_from.
  split; [reflexivity |]. split; [apply filter_length_le |].
  apply filter_length_all.
Qed.

(** X9.  A response that [search] returns echoes the query of the
    request, counts its own results in [total_results], carries the
    measured time, and records status 200 and the configured timeout in
    its metadata. *)
Theorem search_response_consistent (tool : WebSearchTool) (post : Provider)
  (elapsed : float) (request : WebSearchRequest) (response : WebSearchResponse) :
  WebSearch.search tool post elapsed request = Ok response ->
  response_query response = Models.query request /\
  total_results response = List.length (Models.results response) /\
  response_time_ms response = elapsed /\
  dict_get (Models.metadata response) "status_code" = Some (JInt 200) /\
  dict_get (Models.metadata response) "request_timeout"
    = Some (JInt (WebSearch.timeout tool)).
Proof.
  unfold WebSearch.search. intros H.
  destruct (fetch tool post request) as [data | e]; [| discriminate].
  simpl in H. rewrite try_except_Exception in H.
  destruct (_parse_results data (Models.query request)) as [rs | e];
    simpl in H; [| discriminate].
  injection H as <-. now repeat split.
Qed.

(** X10.  When the provider answers 200 with a dict whose [organic] field
    is there and is not a list, [search] fails with a [WebSearchError]
    that names the field. *)
Theorem search_organic_not_a_list (tool : WebSearchTool) (post : Provider)
  (elapsed : float) (request : WebSearchRequest) (text : res string)
  (d : dict) (v : json) :
  post (Models.query request) (payload_num tool request)
    = Responded 200 text (Ok (JObj d)) ->
  dict_get d "organic" = Some v -> is_list v = false ->
  WebSearch.search tool post elapsed request =
  Raise (mk_exn WebSearchError
           ("Failed to parse API response: Failed to parse search results: "
            ++ "Invalid response format: 'organic' field is not a list")).
Proof.
  intros P O L. unfold WebSearch.search.
  rewrite (fetch_200 tool post request text (JObj d) P). simpl bind.
  unfold _parse_results. simpl. rewrite O.
  destruct v; try discriminate; reflexivity.
Qed.

End ParsedResults.

(** * Further properties of the supervisor and of the front end *)

Section Lifecycle.

(** X11.  A stop that finds the supervisor running always leaves it
    stopped with the handle released, whatever [terminate], the wait and
    [kill] do; it raises only what [kill] raised, and nothing when the
    child exited in time. *)
Theorem stop_server_always_releases (w : StopWorld) (self : MCPClient)
  (p : Popen) :
  is_running self = true -> process self = Some p ->
  snd (stop_server w self)
    = {| process := None; is_running := false; timeout := timeout self |} /\
  (fst (stop_server w self) = Ok tt \/ fst (stop_server w self) = kill w) /\
  (terminate w = Ok tt -> wait w = Ok tt -> fst (stop_server w self) = Ok tt).
Proof.
  intros R P. unfold stop_server, bindM, get_self. rewrite R, P. simpl.
  unfold try_finally, try_exceptM, bindM, lift.
  destruct (terminate w) as [[] | e]; simpl;
    [destruct (wait w) as [[] | e]; simpl |].
  1: { split; [reflexivity |]. split; [now left | reflexivity]. }
  all: destruct (issubclass (cls e) TimeoutError); simpl;
       [ destruct (kill w) as [[] | k]; simpl
       | rewrite issubclass_Exception; simpl ].
  all: split; [reflexivity |];
       split; [(left; reflexivity) || (right; reflexivity) |];
       intros; (reflexivity || discriminate).
Qed.

(** X12.  When the child cannot be spawned, [start_server] raises the
    exception of the spawn itself and leaves a stopped supervisor as it
    was. *)
Theorem start_server_spawn_failure (w : StartWorld) (self : MCPClient) (e : exn) :
  is_running self = false -> popen w = Raise e ->
  start_server w self = (Raise e, self).
Proof.
  intros R P. unfold start_server, bindM, get_self. rewrite R.
  unfold try_exceptM, bindM, lift. rewrite P. simpl.
  rewrite issubclass_Exception. unfold bindM, cleanup.
  now rewrite stop_server_not_running by exact R.
Qed.


Lemma start_server_alive (w : StartWorld) (self : MCPClient) (p : Popen) :
  is_running self = false -> popen w = Ok p -> poll w = None ->
  start_server w self
  = (Ok tt, {| process := Some p; is_running := true; timeout := timeout self |}).
Proof.
  intros R P L. unfold start_server, bindM, get_self. rewrite R.
  unfold try_exceptM, bindM, lift. rewrite P, L. reflexivity.
Qed.

(** X13.  A stop followed by a start that finds the child alive gives a
    running supervisor that holds the new handle and whose health check
    answers True. *)
Theorem stop_then_start_is_healthy (w_stop : StopWorld) (w : StartWorld)
  (self : MCPClient) (p : Popen) :
  consistent self = true -> popen w = Ok p -> poll w = None ->
  let started := {| process := Some p; is_running := true;
                    timeout := timeout self |} in
  start_server w (snd (stop_server w_stop self)) = (Ok tt, started) /\
  check_health None started = (Ok true, started).
Proof.
  intros C P L started. split; [| reflexivity].
  unfold consistent in C.
  destruct (is_running self) eqn:R.
  - destruct (process self) as [q |] eqn:Q; [| discriminate].
    rewrite (stop_server_running_releases w_stop self q R Q).
    now rewrite start_server_alive with (p := p).
  - rewrite (stop_server_not_running w_stop self R). simpl.
    now rewrite (start_server_alive w self p R P L).
Qed.

(** X14.  The health check answers healthy exactly when the supervisor
    is marked running and the poll finds the child alive; it never
    raises, never touches the handle, and leaves the running flag equal
    to its answer. *)
Theorem health_check_verdict (poll_now : option Z) (self : MCPClient) :
  consistent self = true ->
  let healthy := is_running self && negb (is_some poll_now) in
  health_check poll_now self =
  (Ok (health_answer healthy),
   {| process := process self; is_running := healthy;
      timeout := timeout self |}).
Proof.
  intros C healthy. subst healthy. unfold consistent in C.
  unfold health_check, try_exceptM, bindM, check_health, get_self.
  destruct self as [pr r t]. simpl in *.
  destruct r; simpl; [| reflexivity].
  destruct pr as [p |]; [| discriminate]. simpl.
  destruct poll_now; reflexivity.
Qed.

End Lifecycle.

Section Calls.

Variable json_loads : string -> res json.
Variable repr : json -> string.
Variable as_int : json -> option Z.

(** The three [except] clauses of [call_tool] turn every exception into a
    [RuntimeError]. *)
Lemma call_tool_clauses (self s : MCPClient) (e : exn) :
  exists m,
    dispatchM e
      [(TimeoutError, fun _ =>
          raiseM RuntimeError
            ("MCP tool call timed out after " ++ str_of_Z (timeout self)
             ++ " seconds"));
       (JSONDecodeError, fun e0 =>
          raiseM RuntimeError
            ("Invalid JSON response from MCP server: " ++ msg e0));
       (Exception, fun e0 =>
          raiseM (A := dict) RuntimeError ("Error calling MCP tool: " ++ msg e0))]
      s
    = (Raise (mk_exn RuntimeError m), s).
Proof.
  simpl. destruct (issubclass (cls e) TimeoutError); [eexists; reflexivity |].
  destruct (issubclass (cls e) JSONDecodeError); [eexists; reflexivity |].
  rewrite issubclass_Exception. eexists; reflexivity.
Qed.

(** The outcomes of a call. *)
Lemma call_tool_outcome (meth : string) (args : dict)
  (w : CallWorld) (self : MCPClient) :
  exists outcome,
    call_tool json_loads repr meth args w self = (outcome, self) /\
    match outcome with
    | Ok d => d <> []
    | Raise e => cls e = RuntimeError
    end.
Proof.
  unfold call_tool, bindM, get_self, raiseM, lift.
  destruct (negb (is_running self) || negb (is_some (process self)));
    [eexists; split; reflexivity |].
  unfold try_exceptM, bindM, lift, raiseM, ret.
  assert (D : forall e : exn, exists outcome : res dict,
             dispatchM e
               [(TimeoutError, fun _ =>
                   raiseM RuntimeError
                     ("MCP tool call timed out after "
                      ++ str_of_Z (timeout self) ++ " seconds"));
                (JSONDecodeError, fun e0 =>
                   raiseM RuntimeError
                     ("Invalid JSON response from MCP server: " ++ msg e0));
                (Exception, fun e0 =>
                   raiseM RuntimeError ("Error calling MCP tool: " ++ msg e0))]
               self = (outcome, self) /\
             match outcome with
             | Ok d => d <> []
             | Raise e1 => cls e1 = RuntimeError
             end).
  { intros e. destruct (call_tool_clauses self self e) as [m E].
    eexists. split; [exact E | reflexivity]. }
  assert (K : forall m : string, exists outcome : res dict,
             (raise RuntimeError m, self) = (outcome, self) /\
             match outcome with
             | Ok d => d <> []
             | Raise e1 => cls e1 = RuntimeError
             end).
  { intros m. eexists. split; reflexivity. }
  destruct (stdin_write w _) as [[] | e1]; simpl; [| apply D].
  destruct (stdin_flush w) as [[] | e2]; simpl; [| apply D].
  destruct (readline w (timeout self)) as [line | e3]; simpl; [| apply D].
  destruct (String.eqb line ""); simpl; [apply K |].
  destruct (json_loads (strip line)) as [data | e4]; simpl; [| apply D].
  destruct (JSONRPCResponse_init data) as [response | e5]; simpl; [| apply D].
  destruct (truthy_dict (error response)); simpl; [apply K |].
  destruct (result response) as [[| item rest] |]; simpl; try apply K.
  eexists. split; [reflexivity | discriminate].
Qed.

(** X15.  [call_tool] fails with a [RuntimeError] and with nothing else,
    a result it returns is never the empty mapping, and either way the
    attributes of the supervisor are as before. *)
Theorem call_tool_fails_only_with_RuntimeError (meth : string) (args : dict)
  (w : CallWorld) (self : MCPClient) :
  snd (call_tool json_loads repr meth args w self) = self /\
  (forall d, fst (call_tool json_loads repr meth args w self) = Ok d ->
             d <> []) /\
  (forall e, fst (call_tool json_loads repr meth args w self) = Raise e ->
             cls e = RuntimeError).
Proof.
  destruct (call_tool_outcome meth args w self) as [outcome [E O]].
  rewrite E. simpl. split; [reflexivity |].
  split; intros x H; subst outcome; exact O.
Qed.

(** X16.  [call_tool] on a supervisor that is not running raises "MCP
    server is not running" whatever the pipes would do, and [/search]
    answers 500 with that message. *)
Theorem search_web_not_running (request : SearchRequest) (meth : string)
  (args : dict) (w : CallWorld) (self : MCPClient) :
  is_running self = false ->
  call_tool json_loads repr meth args w self
    = (Raise (mk_exn RuntimeError "MCP server is not running"), self) /\
  search_web json_loads repr as_int request w self
    = (Ok (inr {| status_code := 500;
                  detail := "Search failed: MCP server is not running" |}),
       self).
Proof.
  intros R.
  assert (C : forall m a,
             call_tool json_loads repr m a w self
             = (Raise (mk_exn RuntimeError "MCP server is not running"), self)).
  { intros m a. unfold call_tool, bindM, get_self. now rewrite R. }
  split; [apply C |].
  unfold search_web, search, try_exceptM, bindM. now rewrite C.
Qed.

(** A call that reads a line which decodes and validates as a response
    with an error that is not empty. *)
Lemma call_tool_error_response (meth : string) (args : dict) (w : CallWorld)
  (self : MCPClient) (p : Popen) (line : string) (data : json)
  (response : JSONRPCResponse) :
  is_running self = true -> process self = Some p ->
  (forall request, stdin_write w request = Ok tt) -> stdin_flush w = Ok tt ->
  readline w (timeout self) = Ok line -> String.eqb line "" = false ->
  json_loads (strip line) = Ok data ->
  JSONRPCResponse_init data = Ok response ->
  forall (item : string * json) (rest : dict),
  error response = Some (item :: rest) ->
  call_tool json_loads repr meth args w self =
  (Raise (mk_exn RuntimeError
            ("Error calling MCP tool: MCP error: " ++
             str repr (get_or (item :: rest) "message"
                              (JStr "Unknown MCP error")))), self).
Proof.
  intros R P W F L N D V item rest E.
  unfold call_tool, bindM, get_self. rewrite R, P. simpl.
  unfold try_exceptM, bindM, lift. rewrite W, F, L, N, D, V, E.
  unfold get_or. reflexivity.
Qed.

(** X17.  A response with an error that is not empty makes the call fail
    with the message of the error, even when the response carries a
    result as well. *)
Theorem call_tool_error_wins_over_result (meth : string) (args : dict)
  (w : CallWorld) (self : MCPClient) (p : Popen) (line : string) (data : json)
  (response : JSONRPCResponse) (text : string) (e r : dict) :
  is_running self = true -> process self = Some p ->
  (forall request, stdin_write w request = Ok tt) -> stdin_flush w = Ok tt ->
  readline w (timeout self) = Ok line -> String.eqb line "" = false ->
  json_loads (strip line) = Ok data ->
  JSONRPCResponse_init data = Ok response ->
  error response = Some e -> dict_get e "message" = Some (JStr text) ->
  result response = Some r ->
  call_tool json_loads repr meth args w self =
  (Raise (mk_exn RuntimeError
            ("Error calling MCP tool: MCP error: " ++ text)), self).
Proof.
  intros R P W F L N D V E M _.
  destruct e as [| item rest]; [discriminate |].
  rewrite (call_tool_error_response meth args w self p line data response
             R P W F L N D V item rest E).
  unfold get_or. now rewrite M.
Qed.

(** X18.  The id of a response is not compared with the id of the
    request: a response that carries another id is taken as the answer
    of the call. *)
Theorem call_tool_ignores_response_id (meth : string) (args : dict)
  (w : CallWorld) (self : MCPClient) (p : Popen) (line : string) (data : json)
  (response : JSONRPCResponse) (item : string * json) (rest : dict) :
  is_running self = true -> process self = Some p ->
  (forall request, stdin_write w request = Ok tt) -> stdin_flush w = Ok tt ->
  readline w (timeout self) = Ok line -> String.eqb line "" = false ->
  json_loads (strip line) = Ok data ->
  JSONRPCResponse_init data = Ok response ->
  truthy_dict (error response) = false ->
  result response = Some (item :: rest) ->
  id response <> uuid4 w ->
  call_tool json_loads repr meth args w self = (Ok (item :: rest), self).
Proof.
  intros R P W F L N D V E S _.
  rewrite (call_tool_response json_loads repr meth args w self p line data
             response R P W F L N D V E).
  now rewrite S.
Qed.

(** X19.  At the end of the stream, where [readline] returns the empty
    string, the call fails with "No response received", and the
    supervisor stays marked running. *)
Theorem call_tool_end_of_stream (meth : string) (args : dict)
  (w : CallWorld) (self : MCPClient) (p : Popen) :
  is_running self = true -> process self = Some p ->
  (forall request, stdin_write w request = Ok tt) -> stdin_flush w = Ok tt ->
  readline w (timeout self) = Ok "" ->
  call_tool json_loads repr meth args w self =
  (Raise (mk_exn RuntimeError
            "Error calling MCP tool: No response received from MCP server"),
   self) /\
  is_running (snd (call_tool json_loads repr meth args w self)) = true.
Proof.
  intros R P W F L.
  assert (C : call_tool json_loads repr meth args w self =
              (Raise (mk_exn RuntimeError
                 "Error calling MCP tool: No response received from MCP server"),
               self)).
  { unfold call_tool, bindM, get_self. rewrite R, P. simpl.
    unfold try_exceptM, bindM, lift. now rewrite W, F, L. }
  split; [exact C |]. now rewrite C.
Qed.


(** X21.  A response that decodes to a dict without an [id], or with an
    [id] that is no string, is rejected: the call fails even when the
    dict carries a result. *)
Theorem call_tool_response_without_id (meth : string) (args : dict)
  (w : CallWorld) (self : MCPClient) (p : Popen) (line : string) (d : dict) :
  is_running self = true -> process self = Some p ->
  (forall request, stdin_write w request = Ok tt) -> stdin_flush w = Ok tt ->
  readline w (timeout self) = Ok line -> String.eqb line "" = false ->
  json_loads (strip line) = Ok (JObj d) ->
  match dict_get d "id" with Some (JStr _) => False | _ => True end ->
  exists m,
    call_tool json_loads repr meth args w self =
    (Raise (mk_exn RuntimeError ("Error calling MCP tool: " ++ m)), self).
Proof.
  intros R P W F L N D I.
  assert (V : exists m, JSONRPCResponse_init (JObj d)
                        = Raise (mk_exn ValidationError m)).
  { unfold JSONRPCResponse_init, validation_error, raise.
    assert (J : match dict_get d "id" with
                | Some x => as_str x
                | None => None
                end = None).
    { destruct (dict_get d "id") as [[| | | | s | |] |]; try reflexivity.
      now elim I. }
    rewrite J.
    destruct (match dict_get d "jsonrpc" with
              | Some x => as_str x
              | None => Some "2.0"
              end);
      destruct (as_optional_dict (dict_get d "result"));
      destruct (as_optional_dict (dict_get d "error"));
      eexists; reflexivity. }
  destruct V as [m V]. exists m.
  unfold call_tool, bindM, get_self. rewrite R, P. simpl.
  unfold try_exceptM, bindM, lift. rewrite W, F, L, N, D, V. reflexivity.
Qed.

(** *** The [/search] handler *)

(** The test [result.get("status") == "success"], as a boolean. *)
Lemma status_is_success {A} (v : option json) (a b : A) :
  match v with
  | Some (JStr "success") => a
  | _ => b
  end =
  if match v with
     | Some (JStr s) => String.eqb s "success"
     | _ => false
     end
  then a else b.
Proof.
  destruct v as [[| | | | s | |] |]; try reflexivity.
  destruct (String.eqb_spec s "success") as [-> | N]; [reflexivity |].
  repeat (destruct s as [| [[] [] [] [] [] [] [] []] s]; try reflexivity).
  now elim N.
Qed.

(** What [search_web] does with the result of the call. *)
Lemma search_web_answer (request : SearchRequest) (w : CallWorld)
  (self : MCPClient) (outcome : res dict) :
  call_tool json_loads repr "web_search"
    [("query", JStr (query request));
     ("max_results", JInt (or_default (max_results request) 10))] w self
    = (outcome, self) ->
  search_web json_loads repr as_int request w self =
  (Ok match (result <- outcome ;;
             if match dict_get result "status" with
                | Some (JStr s) => String.eqb s "success"
                | _ => false
                end
             then
               items <- iter (get_or result "results" (JList [])) ;;
               search_results <- convert_items as_int items [] ;;
               SearchResponse_init search_results
                 (get_or result "metadata" (JObj []))
                 (JStr "success") JNull JNull
             else
               SearchResponse_init [] (JObj []) (JStr "error")
                 (get_or result "error" (JStr "Unknown error"))
                 (get_or result "error_type" (JStr "unknown")))%res
      with
      | Ok response => inl response
      | Raise e => inr {| status_code := 500;
                          detail := "Search failed: " ++ msg e |}
      end, self).
Proof.
  intros C. unfold search_web, search, try_exceptM, bindM. rewrite C.
  destruct outcome as [d | e]; simpl bind.
  - rewrite status_is_success.
    destruct (match dict_get d "status" with
              | Some (JStr s) => String.eqb s "success"
              | _ => false
              end).
    + unfold lift, ret.
      destruct (iter (get_or d "results" (JList []))) as [items | e];
        simpl; [| now rewrite issubclass_Exception].
      destruct (convert_items as_int items []) as [rs | e];
        simpl; [| now rewrite issubclass_Exception].
      destruct (SearchResponse_init rs _ _ _ _) as [r | e];
        simpl; [reflexivity | now rewrite issubclass_Exception].
    + unfold lift, ret.
      destruct (SearchResponse_init [] _ _ _ _) as [r | e];
        simpl; [reflexivity | now rewrite issubclass_Exception].
  - simpl. now rewrite issubclass_Exception.
Qed.

(** X22.  [/search] never raises and never changes the supervisor: it
    answers with a response, or with an HTTP error whose status is 500 and
    whose detail starts with "Search failed: ". *)
Theorem search_web_always_answers (request : SearchRequest) (w : CallWorld)
  (self : MCPClient) :
  exists answer,
    search_web json_loads repr as_int request w self = (Ok answer, self) /\
    match answer with
    | inl _ => True
    | inr h => status_code h = 500%Z /\
               String.prefix "Search failed: " (detail h) = true
    end.
Proof.
  destruct (call_tool_outcome "web_search"
              [("query", JStr (query request));
               ("max_results", JInt (or_default (max_results request) 10))]
              w self) as [outcome [C _]].
  rewrite (search_web_answer request w self outcome C).
  eexists. split; [reflexivity |].
  match goal with |- match match ?o with _ => _ end with _ => _ end =>
    destruct o as [r | e] end; [exact I |].
  split; [reflexivity | apply (prefix_append "Search failed: ")].
Qed.

(** The loop of the handler reads back what the worker formatted. *)
Lemma convert_items_format (rs : list Models.SearchResult) :
  (forall z, as_int (JInt z) = Some z) ->
  forall acc,
  convert_items as_int (map McpServer.format_result rs) acc
  = Ok (acc ++ map to_client rs)%list.
Proof.
  intros Z. induction rs as [| r rest IH]; intros acc; simpl.
  - now rewrite app_nil_r.
  - unfold SearchResult_init. simpl. rewrite Z. simpl.
    rewrite IH. now rewrite <- app_assoc.
Qed.

(** X23.  What the worker returns for a response of the provider client
    comes out of [/search] unchanged: the same results in the same order,
    each with its title, snippet, url and rank, under status "success",
    with the metadata of the worker. *)
Theorem search_web_returns_worker_results (request : SearchRequest)
  (w : CallWorld) (self : MCPClient) (response : WebSearchResponse) :
  (forall z, as_int (JInt z) = Some z) ->
  call_tool json_loads repr "web_search"
    [("query", JStr (query request));
     ("max_results", JInt (or_default (max_results request) 10))] w self
    = (Ok (success_dict response), self) ->
  search_web json_loads repr as_int request w self =
  (Ok (inl {| results := map to_client (Models.results response);
              metadata :=
                [("query", JStr (response_query response));
                 ("total_results", JInt (Z.of_nat (total_results response)));
                 ("response_time_ms", JFloat (response_time_ms response));
                 ("api_provider", JStr "serper")];
              status := "success";
              response_error := None;
              error_type := None |}), self).
Proof.
  intros Z C. rewrite (search_web_answer request w self _ C).
  unfold success_dict. simpl.
  now rewrite (convert_items_format (Models.results response) Z []).
Qed.

(** X24.  An error response of the worker comes out of [/search] as a
    response, not as an HTTP error: no results, status "error", and the
    message and the kind of the worker. *)
Theorem search_web_echoes_worker_error (request : SearchRequest)
  (w : CallWorld) (self : MCPClient) (message details kind : string)
  (d : dict) :
  JObj d = McpServer.error_dict message details kind ->
  call_tool json_loads repr "web_search"
    [("query", JStr (query request));
     ("max_results", JInt (or_default (max_results request) 10))] w self
    = (Ok d, self) ->
  search_web json_loads repr as_int request w self =
  (Ok (inl {| results := [];
              metadata := [];
              status := "error";
              response_error := Some message;
              error_type := Some kind |}), self).
Proof.
  intros E C. injection E as ->.
  now rewrite (search_web_answer request w self _ C).
Qed.

(** *** Runs and the application *)

Lemma start_server_consistent (w : StartWorld) (self : MCPClient) :
  consistent self = true ->
  consistent (snd (start_server w self)) = true /\
  timeout (snd (start_server w self)) = timeout self.
Proof.
  intros C. unfold start_server, bindM, get_self.
  destruct (is_running self) eqn:R; [now split |].
  unfold try_exceptM, bindM, lift.
  destruct (popen w) as [p | e]; simpl.
  - destruct (poll w) as [code |]; simpl; [| now split].
    unfold bindM, cleanup, set_process.
    rewrite stop_server_not_running by exact R.
    simpl. unfold consistent. simpl. now rewrite R.
  - rewrite issubclass_Exception. unfold bindM, cleanup.
    rewrite stop_server_not_running by exact R. now split.
Qed.

Lemma stop_server_consistent (w : StopWorld) (self : MCPClient) :
  consistent self = true ->
  consistent (snd (stop_server w self)) = true /\
  timeout (snd (stop_server w self)) = timeout self.
Proof.
  intros C. destruct (is_running self) eqn:R.
  - unfold consistent in C. rewrite R in C.
    destruct (process self) as [p |] eqn:P; [| discriminate].
    now rewrite (stop_server_running_releases w self p R P).
  - rewrite (stop_server_not_running w self R). now split.
Qed.

Lemma check_health_consistent (poll_now : option Z) (self : MCPClient) :
  consistent self = true ->
  consistent (snd (check_health poll_now self)) = true /\
  timeout (snd (check_health poll_now self)) = timeout self.
Proof.
  intros C. unfold check_health, bindM, get_self.
  destruct (negb (is_running self) || negb (is_some (process self)));
    [now split |].
  destruct (is_some poll_now); now split.
Qed.

Lemma step_consistent (o : op) (self : MCPClient) :
  consistent self = true ->
  consistent (snd (step json_loads repr o self)) = true /\
  timeout (snd (step json_loads repr o self)) = timeout self.
Proof.
  intros C. destruct o as [w | w | poll_now | meth args w]; simpl.
  - now apply start_server_consistent.
  - now apply stop_server_consistent.
  - pose proof (check_health_consistent poll_now self C) as H.
    now destruct (check_health poll_now self) as [[b | e] s].
  - rewrite call_tool_keeps_state. now split.
Qed.

(** X25.  Through every run of starts, stops, health checks and calls
    from a new client, the supervisor is marked running only while it
    holds a handle, and its timeout stays at 30 seconds. *)
Theorem supervisor_stays_consistent (ops : list op) :
  consistent (snd (run json_loads repr ops MCPClient_init)) = true /\
  timeout (snd (run json_loads repr ops MCPClient_init)) = 30%Z.
Proof.
  assert (G : forall self,
             consistent self = true ->
             consistent (snd (run json_loads repr ops self)) = true /\
             timeout (snd (run json_loads repr ops self)) = timeout self).
  { induction ops as [| o rest IH]; intros self C; simpl; [now split |].
    destruct (step_consistent o self C) as [C1 T1].
    destruct (step json_loads repr o self) as [answer s1]. simpl in *.
    destruct (IH s1 C1) as [C2 T2].
    destruct (run json_loads repr rest s1) as [answers final]. simpl in *.
    split; [exact C2 | congruence]. }
  apply (G MCPClient_init). reflexivity.
Qed.

(** One request: an answer, and a supervisor that differs at most by a
    running flag that the health check cleared. *)
Lemma handle_answers (r : http_request) (self : MCPClient) :
  exists answer self',
    handle json_loads repr as_int r self = (Ok answer, self') /\
    process self' = process self /\ timeout self' = timeout self /\
    (is_running self' = true -> is_running self = true) /\
    (is_health_poll_alive r = true -> consistent self = true -> self' = self).
Proof.
  destruct r as [request w | poll_now]; unfold handle, bindM.
  - destruct (call_tool_outcome "web_search"
                [("query", JStr (query request));
                 ("max_results", JInt (or_default (max_results request) 10))]
                w self) as [outcome [C _]].
    rewrite (search_web_answer request w self outcome C).
    eexists. exists self. now repeat split.
  - unfold health_check, try_exceptM, bindM, check_health, get_self.
    destruct self as [pr rn t]. simpl.
    destruct rn; simpl.
    + destruct pr as [p |]; simpl.
      * destruct poll_now as [code |]; simpl; eexists; eexists;
          (split; [reflexivity |]); repeat split; try discriminate.
      * eexists; eexists; (split; [reflexivity |]); now repeat split.
    + eexists; eexists; (split; [reflexivity |]); now repeat split.
Qed.

Lemma serve_answers (requests : list http_request) : forall self,
  exists answers self',
    serve json_loads repr as_int requests self = (Ok answers, self') /\
    List.length answers = List.length requests /\
    process self' = process self /\ timeout self' = timeout self /\
    (is_running self' = true -> is_running self = true) /\
    (forallb is_health_poll_alive requests = true ->
     consistent self = true -> self' = self).
Proof.
  induction requests as [| r rest IH]; intros self; simpl.
  - exists [], self. now repeat split.
  - destruct (handle_answers r self) as [a [s1 [E [P1 [T1 [R1 A1]]]]]].
    destruct (IH s1) as [answers [s2 [E2 [L2 [P2 [T2 [R2 A2]]]]]]].
    unfold bindM. rewrite E, E2. unfold ret.
    exists (a :: answers), s2. split; [reflexivity |].
    split; [simpl; now rewrite L2 |].
    split; [congruence |]. split; [congruence |].
    split; [intros H; apply R1, R2, H |].
    intros H C. apply andb_prop in H as [Ha Hr].
    assert (s1 = self) as -> by now apply A1.
    now apply A2.
Qed.

(** X26.  Every request that the application handles gets an answer: a
    run of [/search] and [/health] requests never raises and returns one
    answer for each request, and it never changes the handle. *)
Theorem serve_answers_every_request (requests : list http_request)
  (self : MCPClient) :
  exists answers self',
    serve json_loads repr as_int requests self = (Ok answers, self') /\
    List.length answers = List.length requests /\
    process self' = process self.
Proof.
  destruct (serve_answers requests self) as [answers [s [E [L [P _]]]]].
  exists answers, s. now repeat split.
Qed.

(** X27.  When the start-up finds the child alive, the application, after
    whatever requests it served, shuts down with the supervisor not marked
    running; and when no health check saw the child exit, the shut-down
    releases the handle, so the client ends as it began. *)
Theorem lifespan_leaves_supervisor_stopped (w : StartWorld)
  (requests : list http_request) (w_stop : StopWorld) (p : Popen) :
  popen w = Ok p -> poll w = None ->
  is_running (snd (lifespan json_loads repr as_int w requests w_stop
                     MCPClient_init)) = false /\
  (forallb is_health_poll_alive requests = true ->
   snd (lifespan json_loads repr as_int w requests w_stop MCPClient_init)
   = MCPClient_init).
Proof.
  intros P L.
  assert (S : lifespan json_loads repr as_int w requests w_stop MCPClient_init
              = (answers <- serve json_loads repr as_int requests ;;
                 stop_server w_stop ;;; ret answers)
                  {| process := Some p; is_running := true; timeout := 30 |}).
  { unfold lifespan, lifespan_startup, lifespan_shutdown, cleanup.
    unfold bindM at 1. unfold try_exceptM.
    now rewrite (start_server_alive w MCPClient_init p eq_refl P L). }
  rewrite S. clear S.
  set (started := {| process := Some p; is_running := true; timeout := 30 |}).
  destruct (serve_answers requests started)
    as [answers [s [E [_ [Ps [Ts [_ A]]]]]]].
  unfold bindM. rewrite E.
  destruct (is_running s) eqn:R.
  - assert (S : snd (stop_server w_stop s) = MCPClient_init).
    { rewrite (stop_server_running_releases w_stop s p R);
        [| rewrite Ps; reflexivity].
      rewrite Ts. reflexivity. }
    destruct (stop_server w_stop s) as [[[] | e] s']; simpl in *; subst s';
      now split.
  - rewrite (stop_server_not_running w_stop s R). simpl.
    split; [exact R |]. intros H.
    rewrite (A H eq_refl) in R. discriminate.
Qed.


End Calls.

(** * The further properties on the sample inputs *)

Lemma payload_num_within_ceiling_witness :
  (1 <= payload_num ex_tool ex_request <= 20)%Z /\
  payload_num ex_tool ex_request = Z.min 1 20.
Proof.
  apply (payload_num_within_ceiling ex_tool "test" (Some 1%Z) ex_request);
    [reflexivity | simpl; lia].
Defined.

Lemma search_raises_only_search_errors_witness :
  issubclass WebSearchError WebSearchError = true /\
  issubclass WebSearchError WebSearchAPIError = false.
Proof.
  apply (search_raises_only_search_errors ex_tool
           (ex_provider_status 429 "") 0%float ex_request
           (mk_exn WebSearchError "Unexpected error: API rate limit exceeded")).
  reflexivity.
Defined.

Lemma bad_status_reported_as_search_error_witness :
  McpServer.web_search ex_server (ex_provider_status 503 "busy") 0%float
    "test" (Some 1%Z) =
  Ok (McpServer.error_dict "Search error occurred"
        "Unexpected error: API error 503: busy" "search_error").
Proof.
  apply (bad_status_reported_as_search_error
           (ex_provider_status 503 "busy") 0%float ex_server "test" (Some 1%Z)
           ex_request 503 "busy" (Ok JNull));
    [reflexivity | reflexivity | discriminate].
Defined.


Lemma provider_timeout_reported_as_timeout_witness :
  McpServer.web_search ex_server
    (ex_provider_raises (mk_exn TimeoutError "")) 0%float "test" (Some 1%Z) =
  Ok (McpServer.error_dict "Search request timed out"
        "Request timed out after 30 seconds" "timeout").
Proof.
  apply (provider_timeout_reported_as_timeout ex_server
           (ex_provider_raises (mk_exn TimeoutError "")) 0%float
           "test" (Some 1%Z) ex_request (mk_exn TimeoutError ""));
    reflexivity.
Defined.


Lemma web_search_never_reports_api_error_witness :
  exists d,
    McpServer.error_dict "Search error occurred"
      "Unexpected error: API rate limit exceeded" "search_error" = JObj d /\
    dict_get d "error_type" <> Some (JStr "api_error").
Proof.
  apply (web_search_never_reports_api_error ex_server
           (ex_provider_status 429 "") 0%float "test" (Some 1%Z)).
  reflexivity.
Defined.

Lemma parse_results_counts_well_formed_witness :
  exists rs,
    _parse_results ex_gap_payload "test" = Ok rs /\
    List.length rs = List.length (filter well_formed ex_gap_entries) /\
    List.length rs <= List.length ex_gap_entries /\
    (List.length rs = List.length ex_gap_entries <->
     Forall (fun entry => well_formed entry = true) ex_gap_entries).
Proof.
  apply (parse_results_counts_well_formed ex_gap_payload "test" ex_gap_entries).
  reflexivity.
Defined.

Lemma search_response_consistent_witness :
  response_query ex_response = "test" /\
  total_results ex_response = List.length (Models.results ex_response) /\
  response_time_ms ex_response = 0%float /\
  dict_get (Models.metadata ex_response) "status_code" = Some (JInt 200) /\
  dict_get (Models.metadata ex_response) "request_timeout" = Some (JInt 30).
Proof.
  apply (search_response_consistent ex_tool (ex_provider ex_payload) 0%float
           ex_request ex_response).
  reflexivity.
Defined.

Lemma search_organic_not_a_list_witness :
  WebSearch.search ex_tool (ex_provider [("organic", JNull)]) 0%float ex_request =
  Raise (mk_exn WebSearchError
           ("Failed to parse API response: Failed to parse search results: "
            ++ "Invalid response format: 'organic' field is not a list")).
Proof.
  apply (search_organic_not_a_list ex_tool (ex_provider [("organic", JNull)])
           0%float ex_request (Ok "") [("organic", JNull)] JNull);
    reflexivity.
Defined.

Lemma stop_server_always_releases_witness :
  snd (stop_server ex_stop_resists ex_running) = MCPClient_init /\
  (fst (stop_server ex_stop_resists ex_running) = Ok tt \/
   fst (stop_server ex_stop_resists ex_running) = kill ex_stop_resists) /\
  (terminate ex_stop_resists = Ok tt -> wait ex_stop_resists = Ok tt ->
   fst (stop_server ex_stop_resists ex_running) = Ok tt).
Proof.
  apply (stop_server_always_releases ex_stop_resists ex_running 4242);
    reflexivity.
Defined.

Lemma start_server_spawn_failure_witness :
  start_server ex_start_no_spawn MCPClient_init =
  (Raise (mk_exn OSError "[Errno 2] No such file or directory"), MCPClient_init).
Proof.
  apply (start_server_spawn_failure ex_start_no_spawn MCPClient_init);
    reflexivity.
Defined.

Lemma stop_then_start_is_healthy_witness :
  start_server ex_start_alive (snd (stop_server ex_stop_resists ex_crashed))
    = (Ok tt, {| process := Some 4243; is_running := true; timeout := 30 |}) /\
  check_health None {| process := Some 4243; is_running := true; timeout := 30 |}
    = (Ok true, {| process := Some 4243; is_running := true; timeout := 30 |}).
Proof.
  apply (stop_then_start_is_healthy ex_stop_resists ex_start_alive ex_crashed
           4243); reflexivity.
Defined.

Lemma health_check_verdict_witness :
  health_check None ex_running = (Ok (health_answer true), ex_running).
Proof.
  apply (health_check_verdict None ex_running). reflexivity.
Defined.

Lemma call_tool_fails_only_with_RuntimeError_witness :
  cls (mk_exn RuntimeError "Error calling MCP tool: No result in MCP response")
  = RuntimeError.
Proof.
  apply (proj2 (proj2 (call_tool_fails_only_with_RuntimeError ex_loads ex_repr
                         "web_search" [] (ex_call (Ok ex_line)) ex_running))).
  reflexivity.
Defined.

Lemma search_web_not_running_witness :
  call_tool ex_loads ex_repr "web_search" [] (ex_call (Ok ex_line)) ex_crashed
    = (Raise (mk_exn RuntimeError "MCP server is not running"), ex_crashed) /\
  search_web ex_loads ex_repr ex_as_int ex_search_request
    (ex_call (Ok ex_line)) ex_crashed
    = (Ok (inr {| status_code := 500;
                  detail := "Search failed: MCP server is not running" |}),
       ex_crashed).
Proof.
  apply (search_web_not_running ex_loads ex_repr ex_as_int ex_search_request
           "web_search" [] (ex_call (Ok ex_line)) ex_crashed).
  reflexivity.
Defined.

Lemma call_tool_error_wins_over_result_witness :
  call_tool
    (ex_loads_to (ex_rpc "1" [("result", JObj [("status", JStr "success")]);
                              ("error", JObj [("message", JStr "boom")])]))
    ex_repr "web_search" [] (ex_call (Ok ex_line)) ex_running =
  (Raise (mk_exn RuntimeError "Error calling MCP tool: MCP error: boom"),
   ex_running).
Proof.
  apply (call_tool_error_wins_over_result _ ex_repr "web_search" []
           (ex_call (Ok ex_line)) ex_running 4242 ex_line
           (ex_rpc "1" [("result", JObj [("status", JStr "success")]);
                        ("error", JObj [("message", JStr "boom")])])
           {| jsonrpc := "2.0"; id := "1";
              result := Some [("status", JStr "success")];
              error := Some [("message", JStr "boom")] |}
           "boom" [("message", JStr "boom")] [("status", JStr "success")]);
    reflexivity.
Defined.

Lemma call_tool_ignores_response_id_witness :
  call_tool
    (ex_loads_to (ex_rpc "another" [("result", JObj [("status", JStr "success")])]))
    ex_repr "web_search" [] (ex_call (Ok ex_line)) ex_running =
  (Ok [("status", JStr "success")], ex_running).
Proof.
  apply (call_tool_ignores_response_id _ ex_repr "web_search" []
           (ex_call (Ok ex_line)) ex_running 4242 ex_line
           (ex_rpc "another" [("result", JObj [("status", JStr "success")])])
           {| jsonrpc := "2.0"; id := "another";
              result := Some [("status", JStr "success")];
              error := None |});
    try reflexivity.
  discriminate.
Defined.

Lemma call_tool_end_of_stream_witness :
  call_tool ex_loads ex_repr "web_search" [] (ex_call (Ok "")) ex_running =
  (Raise (mk_exn RuntimeError
            "Error calling MCP tool: No response received from MCP server"),
   ex_running) /\
  is_running (snd (call_tool ex_loads ex_repr "web_search" []
                     (ex_call (Ok "")) ex_running)) = true.
Proof.
  apply (call_tool_end_of_stream ex_loads ex_repr "web_search" []
           (ex_call (Ok "")) ex_running 4242); reflexivity.
Defined.


Lemma call_tool_response_without_id_witness :
  exists m,
    call_tool (ex_loads_to (JObj [("result", JObj [("status", JStr "success")])]))
      ex_repr "web_search" [] (ex_call (Ok ex_line)) ex_running =
    (Raise (mk_exn RuntimeError ("Error calling MCP tool: " ++ m)), ex_running).
Proof.
  apply (call_tool_response_without_id _ ex_repr "web_search" []
           (ex_call (Ok ex_line)) ex_running 4242 ex_line
           [("result", JObj [("status", JStr "success")])]);
    (reflexivity || exact I).
Defined.

Lemma search_web_returns_worker_results_witness :
  search_web
    (ex_loads_to (ex_rpc "1" [("result", JObj (success_dict ex_response))]))
    ex_repr ex_as_int ex_search_request (ex_call (Ok ex_line)) ex_running =
  (Ok (inl {| results := [to_client (result_of 0 ex_entry)];
              metadata :=
                [("query", JStr "test"); ("total_results", JInt 1);
                 ("response_time_ms", JFloat 0%float);
                 ("api_provider", JStr "serper")];
              status := "success";
              response_error := None;
              error_type := None |}), ex_running).
Proof.
  apply (search_web_returns_worker_results _ ex_repr ex_as_int
           ex_search_request (ex_call (Ok ex_line)) ex_running ex_response);
    reflexivity.
Defined.

Lemma search_web_echoes_worker_error_witness :
  search_web
    (ex_loads_to
       (ex_rpc "1"
          [("result",
            McpServer.error_dict "Search request timed out"
              "Request timed out after 30 seconds" "timeout")]))
    ex_repr ex_as_int ex_search_request (ex_call (Ok ex_line)) ex_running =
  (Ok (inl {| results := [];
              metadata := [];
              status := "error";
              response_error := Some "Search request timed out";
              error_type := Some "timeout" |}), ex_running).
Proof.
  apply (search_web_echoes_worker_error _ ex_repr ex_as_int
           ex_search_request (ex_call (Ok ex_line)) ex_running
           "Search request timed out" "Request timed out after 30 seconds"
           "timeout"
           [("error", JStr "Search request timed out");
            ("details", JStr "Request timed out after 30 seconds");
            ("status", JStr "error"); ("error_type", JStr "timeout")]);
    reflexivity.
Defined.

Lemma lifespan_leaves_supervisor_stopped_witness :
  is_running (snd (lifespan ex_loads ex_repr ex_as_int ex_start_alive
                     ex_requests ex_stop_resists MCPClient_init)) = false /\
  (forallb is_health_poll_alive ex_requests = true ->
   snd (lifespan ex_loads ex_repr ex_as_int ex_start_alive ex_requests
          ex_stop_resists MCPClient_init) = MCPClient_init).
Proof.
  apply (lifespan_leaves_supervisor_stopped ex_loads ex_repr ex_as_int
           ex_start_alive ex_requests ex_stop_resists 4243); reflexivity.
Defined.

